(** * RHD2000 / RHD2164 driver core (rhd.c): a shallow embedding

    The C integer types are modelled on [Z] with their wrap-around written
    out ([u8], [u16]); [float] and [double] are the IEEE-754 binary32 and
    binary64 formats of the standard library's [SpecFloat]; the injected
    transfer callback [dev->rw] is a function on an abstract chip state, and
    every driver operation threads a [world] (chip state plus the log of the
    buffers handed to the transport) through a small state-and-failure monad
    whose failure stands for undefined behaviour of the C program (an array
    access out of bounds, a [float] that does not fit the [int] it is
    converted to). *)

From Stdlib Require Import ZArith Lia Bool Sorting.Sorted.
From Stdlib Require Import Floats.SpecFloat.
From Stdlib Require Import Strings.Ascii Strings.String.
From stdpp Require Import base list.

Local Open Scope Z_scope.

(** ** C integer conversions *)

Module CInt.

(** Conversion to [uint8_t]. *)
Definition u8 (z : Z) : Z := z mod 2 ^ 8.

(** Conversion to [uint16_t]. *)
Definition u16 (z : Z) : Z := z mod 2 ^ 16.

(** [for (int i = 0; i < n; i++) acc = body(i, acc);] for a loop without
    [break]. *)
Definition for_range {A : Type} (n : nat) (body : Z -> A -> A) (init : A) : A :=
  fold_left (fun acc i => body (Z.of_nat i) acc) (seq 0 n) init.

End CInt.
Import CInt.

(** ** BitCodec: [rhd_duplicate_bits] and [rhd_unsplit_u16] *)

Module BitCodec.

(** [static int rhd_duplicate_bits(uint8_t val)]; the first line is the
    conversion of the argument to the parameter's type. *)
Definition rhd_duplicate_bits (val : Z) : Z :=
  let val := u8 val in
  for_range 8
    (fun i out =>
       let tmp := Z.land (Z.shiftr val i) 1 in
       Z.lor out (Z.shiftl (Z.lor (Z.shiftl tmp 1) tmp) (2 * i)))
    0.

Definition shift_arr : list Z := [0x1; 0x2; 0x4; 0x8; 0x10; 0x20; 0x40; 0x80].

(** [static void rhd_unsplit_u16(uint16_t data, uint8_t *a, uint8_t *b)];
    the two out-parameters are returned as the pair [(a, b)]. *)
Definition rhd_unsplit_u16 (data : Z) : Z * Z :=
  let data := u16 data in
  let dataa := u16 (Z.shiftr data 1) in
  for_range 8
    (fun i '(aa, bb) =>
       let s := nth (Z.to_nat i) shift_arr 0 in
       (u8 (Z.lor aa (Z.land (Z.shiftr dataa i) s)),
        u8 (Z.lor bb (Z.land (Z.shiftr data i) s))))
    (0, 0).

End BitCodec.
Import BitCodec.

(** ** IEEE-754 arithmetic of [float] and [double] *)

Module Flt.

(** [float] is binary32 and [double] is binary64; both are carried by
    [spec_float], the operations being taken at the format's precision. *)
Definition SFmul32 : spec_float -> spec_float -> spec_float := SFmul 24 128.
Definition SFdiv32 : spec_float -> spec_float -> spec_float := SFdiv 24 128.

(** [a >= b] and [a > b]; like [SFleb] they are false when an operand is a
    NaN. *)
Definition SFgeb (a b : spec_float) : bool :=
  match SFcompare a b with
  | Some (Gt | Eq) => true
  | _ => false
  end.

Definition SFgtb (a b : spec_float) : bool :=
  match SFcompare a b with
  | Some Gt => true
  | _ => false
  end.

(** Conversion of an [int] to [float] and to [double] (round to nearest,
    ties to even). *)
Definition f32_of_Z (z : Z) : spec_float := binary_normalize 24 128 z 0 false.
Definition f64_of_Z (z : Z) : spec_float := binary_normalize 53 1024 z 0 false.

(** Promotion of a [float] to [double] (exact) and conversion of a [double]
    to [float] (rounding). *)
Definition f64_of_f32 (x : spec_float) : spec_float :=
  match x with
  | S754_finite s m e => binary_round 53 1024 s m e
  | _ => x
  end.

Definition f32_of_f64 (x : spec_float) : spec_float :=
  match x with
  | S754_finite s m e => binary_round 24 128 s m e
  | _ => x
  end.

(** The [double] constant written [n / 10^k] in decimal, correctly rounded
    (as GCC and Clang translate decimal constants): [n] and [10^k] are below
    [2^53] for every constant of the driver, so the correctly rounded
    quotient of their exact conversions is the nearest [double]. *)
Definition dec64 (n k : Z) : spec_float :=
  SFdiv 53 1024 (f64_of_Z n) (f64_of_Z (10 ^ k)).

(** The same constant used to initialise a [float]. *)
Definition dec32 (n k : Z) : spec_float := f32_of_f64 (dec64 n k).

(** Conversion of a [float] to [int]: truncation toward zero; [None] where
    C leaves the conversion undefined (NaN, infinities, a value outside the
    range of [int]). *)
Definition int_of_float (x : spec_float) : option Z :=
  match x with
  | S754_zero _ => Some 0
  | S754_finite s m e =>
      let mag := if 0 <=? e then Z.pos m * 2 ^ e else Z.pos m / 2 ^ (- e) in
      let v := if s then - mag else mag in
      if (- 2 ^ 31 <=? v) && (v <? 2 ^ 31) then Some v else None
  | _ => None
  end.

Definition is_nan (x : spec_float) : bool :=
  match x with
  | S754_nan => true
  | _ => false
  end.

End Flt.
Import Flt.

(** ** The transport and the execution monad *)

(** One call of [dev->rw]: the transmit buffer handed over and the length
    asked for. *)
Record xfer := Xfer { xfer_tx : list Z; xfer_len : nat }.

Section Driver.

Context {St : Type}.

(** Modelled from the spec: the device handle [rhd_device_t] and the type
    [rhd_rw_t] of its transfer callback, both declared in rhd.h, which is
    not among the sources: a mode flag and the callback.  The callback
    [rw(tx, rx, len)] performs [len] full-duplex 16-bit word exchanges in
    order and writes the received words into [rx]; here it maps the chip's
    state, the transmit buffer and the length to the chip's next state and
    the received words by position.  Its [int] result is ignored by every
    caller. *)
Record rhd_device_t := {
  double_bits : bool;
  rw : St -> list Z -> nat -> St * (nat -> Z)
}.

(** The chip behind the transport and the log of the transfers issued. *)
Record world := World { chip : St; wire : list xfer }.

(** A driver operation: a state transformer on [world]; [None] is undefined
    behaviour of the C program. *)
Definition M (A : Type) : Type := world -> option (A * world).

#[local] Instance M_ret : MRet M := fun A (a : A) w => Some (a, w).

#[local] Instance M_bind : MBind M := fun A B (f : A -> M B) (c : M A) w =>
  match c w with
  | Some (a, w') => f a w'
  | None => None
  end.

Definition undefined {A : Type} : M A := fun _ => None.

(** [buf[i]] read and written through an array of [uint16_t] or [int]. *)
Definition load (buf : list Z) (i : Z) : M Z :=
  if i <? 0 then undefined
  else match buf !! Z.to_nat i with
       | Some v => mret v
       | None => undefined
       end.

Definition store (buf : list Z) (i v : Z) : M (list Z) :=
  if (0 <=? i) && (i <? Z.of_nat (length buf)) then mret (<[Z.to_nat i := v]> buf)
  else undefined.

(** The received words written over the first [len] slots of [rx]. *)
Definition store_words (rx : list Z) (got : nat -> Z) (len : nat) : list Z :=
  fold_left (fun buf i => <[i := u16 (got i)]> buf) (seq 0 len) rx.

(** [dev->rw(tx, rx, len)]; both buffers must hold [len] words. *)
Definition transfer (dev : rhd_device_t) (tx rx : list Z) (len : nat) : M (list Z) :=
  fun w =>
    if (len <=? length tx)%nat && (len <=? length rx)%nat then
      let '(c, got) := rw dev (chip w) tx len in
      Some (store_words rx got len,
            {| chip := c; wire := wire w ++ [Xfer tx len] |})
    else None.

(** [for (int i = 0; i < n; i++) acc = body(i, acc);] over operations. *)
Fixpoint forM {A : Type} (l : list nat) (body : Z -> A -> M A) (acc : A) : M A :=
  match l with
  | [] => mret acc
  | i :: l' => acc' ← body (Z.of_nat i) acc; forM l' body acc'
  end.

Definition for_rangeM {A : Type} (n : nat) (body : Z -> A -> M A) (acc : A) : M A :=
  forM (seq 0 n) body acc.

(** ** CommandCodec: [rhd_send], [rhd_r], [rhd_w] *)

Definition rhd_send (dev : rhd_device_t) (reg val : Z) : M Z :=
  let reg := u16 reg in
  let val := u16 val in
  if double_bits dev then
    let tx := [u16 (rhd_duplicate_bits reg); u16 (rhd_duplicate_bits val)] in
    rx ← transfer dev tx [0; 0] 2;
    rx1 ← load rx 1;
    let '(rx_a, rx_b) := rhd_unsplit_u16 rx1 in
    mret rx_a
  else
    let tx := u16 (Z.lor (Z.shiftl reg 8) (Z.land val 0xFF)) in
    rx ← transfer dev [tx] [0] 1;
    rx0 ← load rx 0;
    mret (u8 (Z.land rx0 0xFF)).

Definition rhd_r (dev : rhd_device_t) (reg : Z) : M Z :=
  let reg := u16 reg in
  let reg := u16 (Z.lor (Z.land reg 0x3F) 0xC0) in
  rhd_send dev reg 0.

Definition rhd_w (dev : rhd_device_t) (reg val : Z) : M Z :=
  let reg := u16 reg in
  let val := u16 val in
  let reg := u16 (Z.lor (Z.land reg 0x3F) 0x80) in
  rhd_send dev reg val.

(** ** Register addresses

    The address macros are declared in rhd.h; the driver is taken over any
    values of them. *)

Variables (SUPPLY_SENS_ADC_BUF_BIAS MUX_BIAS_CURR : Z).
Variables (AMP_BW_SEL_0 AMP_BW_SEL_1 AMP_BW_SEL_2 : Z).
Variables (AMP_BW_SEL_3 AMP_BW_SEL_4 AMP_BW_SEL_5 : Z).
Variables (ADC_OUT_FMT_DPS_OFF_RMVL INTAN_0 : Z).

(** Whether plain [char] is signed on the target (left to the
    implementation by C). *)
Variable char_is_signed : bool.

(** ** ConfigurationEngine *)

(** [lut[i]] for a constant table indexed by an [int]. *)
Definition lut_at (lut : list Z) (i : Z) : M Z := load lut i.

Definition msps_lut : list Z :=
  [120000; 140000; 175000; 220000; 280000; 350000; 440000; 525000; 700000].
Definition adc_buf_bias_lut : list Z := [32; 16; 8; 8; 8; 4; 3; 3; 2].
Definition mux_bias_lut : list Z := [40; 40; 40; 32; 26; 18; 16; 7; 4].

(** The selection loop of [rhd_cfg_fs], from index [i] over the entries
    [lut] still to visit: [if (msps <= msps_lut[i]) break; i_lut = i;]. *)
Fixpoint fs_loop (msps : spec_float) (lut : list Z) (i i_lut : Z) : Z :=
  match lut with
  | [] => i_lut
  | t :: rest =>
      if SFleb msps (f32_of_Z t) then i_lut else fs_loop msps rest (i + 1) i
  end.

Definition rhd_cfg_fs (dev : rhd_device_t) (fs : spec_float) (n_ch : Z) : M Z :=
  let msps := SFmul32 fs (f32_of_Z n_ch) in
  let i_lut := fs_loop msps msps_lut 0 0 in
  adc ← lut_at adc_buf_bias_lut i_lut;
  _ ← rhd_w dev SUPPLY_SENS_ADC_BUF_BIAS adc;
  mux ← lut_at mux_bias_lut i_lut;
  _ ← rhd_w dev MUX_BIAS_CURR mux;
  match int_of_float msps with
  | Some r => mret r
  | None => undefined
  end.

Definition fh_lut : list Z :=
  [20000; 15000; 10000; 7500; 5000; 3000; 2500; 2000; 1500; 1000; 750; 500;
   300; 250; 200; 150; 100].
Definition rh1_dac1_lut : list Z :=
  [8; 11; 17; 22; 33; 3; 13; 27; 1; 46; 41; 30; 6; 42; 24; 44; 38].
Definition rh1_dac2_lut : list Z :=
  [0; 0; 0; 0; 0; 1; 1; 1; 2; 2; 3; 5; 9; 10; 13; 17; 26].
Definition rh2_dac1_lut : list Z :=
  [4; 8; 16; 23; 37; 13; 25; 44; 23; 30; 36; 43; 2; 5; 7; 8; 5].
Definition rh2_dac2_lut : list Z :=
  [0; 0; 0; 0; 0; 1; 1; 1; 2; 3; 4; 6; 11; 13; 16; 21; 31].

(** [const float fl_lut[25]], each entry a decimal [double] constant
    converted to [float]. *)
Definition fl_lut : list spec_float :=
  [dec32 1 1; dec32 25 2; dec32 3 1; dec32 5 1; dec32 75 2; dec32 10 1;
   dec32 15 1; dec32 20 1; dec32 25 1; dec32 30 1; dec32 50 1; dec32 75 1;
   f32_of_Z 10; f32_of_Z 15; f32_of_Z 20; f32_of_Z 25; f32_of_Z 30;
   f32_of_Z 50; f32_of_Z 75; f32_of_Z 100; f32_of_Z 150; f32_of_Z 200;
   f32_of_Z 250; f32_of_Z 300; f32_of_Z 500].
Definition rl_dac1_lut : list Z :=
  [16; 56; 1; 35; 49; 44; 9; 8; 42; 20; 40; 18; 5; 62; 54; 48; 44; 34; 28;
   25; 21; 18; 17; 15; 13].
Definition rl_dac2_lut : list Z :=
  [60; 54; 40; 17; 9; 6; 4; 3; 2; 2; 1; 1; 1; 0; 0; 0; 0; 0; 0; 0; 0; 0; 0;
   0; 0].
Definition rl_dac3_lut : list Z :=
  [1; 0; 0; 0; 0; 0; 0; 0; 0; 0; 0; 0; 0; 0; 0; 0; 0; 0; 0; 0; 0; 0; 0; 0; 0].

(** The high-cutoff loop of [rhd_cfg_amp_bw]:
    [if (fh >= fh_lut[i]) break; i_fh++;]. *)
Fixpoint fh_loop (fh : spec_float) (lut : list Z) (i_fh : Z) : Z :=
  match lut with
  | [] => i_fh
  | t :: rest => if SFgeb fh (f32_of_Z t) then i_fh else fh_loop fh rest (i_fh + 1)
  end.

(** The low-cutoff loop: [if (fl <= fl_lut[i]) break; i_fl++;]. *)
Fixpoint fl_loop (fl : spec_float) (lut : list spec_float) (i_fl : Z) : Z :=
  match lut with
  | [] => i_fl
  | t :: rest => if SFleb fl t then i_fl else fl_loop fl rest (i_fl + 1)
  end.

Definition rhd_cfg_amp_bw (dev : rhd_device_t) (fl fh : spec_float) : M Z :=
  let i_fh := fh_loop fh fh_lut 0 in
  let i_fl := fl_loop fl fl_lut 0 in
  v ← lut_at rh1_dac1_lut i_fh;
  _ ← rhd_w dev AMP_BW_SEL_0 v;
  v ← lut_at rh1_dac2_lut i_fh;
  _ ← rhd_w dev AMP_BW_SEL_1 v;
  v ← lut_at rh2_dac1_lut i_fh;
  _ ← rhd_w dev AMP_BW_SEL_2 v;
  v ← lut_at rh2_dac2_lut i_fh;
  _ ← rhd_w dev AMP_BW_SEL_3 v;
  v ← lut_at rl_dac1_lut i_fl;
  _ ← rhd_w dev AMP_BW_SEL_4 v;
  dac3 ← lut_at rl_dac3_lut i_fl;
  dac2 ← lut_at rl_dac2_lut i_fl;
  ret ← rhd_w dev AMP_BW_SEL_5 (Z.lor (Z.shiftl dac3 6) dac2);
  mret ret.

(** [const double k_lut[16]]. *)
Definition k_lut : list spec_float :=
  [dec64 99 2; dec64 1103 4; dec64 4579 5; dec64 2125 5;
   dec64 1027 5; dec64 5053 6; dec64 2506 6; dec64 1248 6;
   dec64 6229 7; dec64 3112 7; dec64 1555 7; dec64 7773 8;
   dec64 3886 8; dec64 1943 8; dec64 9714 9; dec64 4857 9].

(** The loop of [rhd_cfg_dsp]: [if (k > k_lut[i]) break; dsp_val++;], the
    [float] [k] being promoted to [double] for the comparison. *)
Fixpoint dsp_loop (k : spec_float) (lut : list spec_float) (dsp_val : Z) : Z :=
  match lut with
  | [] => dsp_val
  | t :: rest =>
      if SFgtb (f64_of_f32 k) t then dsp_val else dsp_loop k rest (dsp_val + 1)
  end.

Definition rhd_cfg_dsp (dev : rhd_device_t) (twos_comp abs_mode dsp : bool)
    (fdsp fs : spec_float) : M Z :=
  let dsp_val :=
    if dsp then
      let k := SFdiv32 fdsp fs in
      dsp_loop k k_lut 0
    else 0 in
  rhd_w dev ADC_OUT_FMT_DPS_OFF_RMVL
    (Z.lor
       (Z.lor
          (Z.lor (Z.lor (Z.shiftl 1 7) (Z.shiftl (Z.b2z twos_comp) 6))
             (Z.shiftl (Z.b2z abs_mode) 5))
          (Z.shiftl (Z.b2z dsp) 4))
       dsp_val).

(** ** DeviceLifecycle: [rhd_read_force], [rhd_sanity_check] *)

Definition rhd_read_force (dev : rhd_device_t) (reg : Z) : M Z :=
  _ ← for_rangeM 2 (fun _ (_ : unit) => _ ← rhd_r dev reg; mret tt) tt;
  rhd_r dev reg.

Definition INTAN : string := "INTAN".

(** The code of a character constant, as an [int]. *)
Definition char_code (c : ascii) : Z := Z.of_N (N_of_ascii c).

(** [(char)v] for [v] in 0..255, seen as an [int]. *)
Definition to_char (v : Z) : Z :=
  if char_is_signed && (128 <=? v) then v - 256 else v.

(** The loop of [rhd_sanity_check], from index [i] over the characters
    still to compare. *)
Fixpoint sanity_loop (dev : rhd_device_t) (sig : list ascii) (i : Z) : M Z :=
  match sig with
  | [] => mret 0
  | c :: rest =>
      v ← rhd_read_force dev (INTAN_0 + i);
      let let_ := to_char v in
      if negb (let_ =? to_char (char_code c)) then mret (i + INTAN_0)
      else sanity_loop dev rest (i + 1)
  end.

Definition rhd_sanity_check (dev : rhd_device_t) : M Z :=
  sanity_loop dev (list_ascii_of_string INTAN) 0.

(** ** ChannelAcquisitionSequencer: [rhd2164_sample], [rhd2164_sample_all] *)

(** The buffer [rx] is the caller's; the operation returns its contents
    after the call (the C function returns the pointer it was given). *)
Definition rhd2164_sample (dev : rhd_device_t) (ch : Z) (rx : list Z) : M (list Z) :=
  let ch := u16 ch in
  if double_bits dev then
    let tx := [u16 (rhd_duplicate_bits ch); 0] in
    rx ← transfer dev tx rx 2;
    rx0 ← load rx 0;
    let '(dat_a1, dat_b1) := rhd_unsplit_u16 rx0 in
    rx1 ← load rx 1;
    let '(dat_a0, dat_b0) := rhd_unsplit_u16 rx1 in
    rx ← store rx 0 (u16 (Z.lor (Z.lor (Z.shiftl (u16 dat_a1) 8) dat_a0) 1));
    rx ← store rx 1 (u16 (Z.lor (Z.lor (Z.shiftl (u16 dat_b1) 8) dat_b0) 1));
    mret rx
  else
    let tx := u16 (Z.shiftl ch 8) in
    rx ← transfer dev [tx] rx 1;
    mret rx.

(** One round of the loop of [rhd2164_sample_all]; the loop carries the
    local [rx] and the caller's [sample_buf]. *)
Definition sample_all_body (dev : rhd_device_t) (ch : Z)
    (st : list Z * list Z) : M (list Z * list Z) :=
  let '(rx, sample_buf) := st in
  rx ← rhd2164_sample dev ch rx;
  let rx_ch := if ch <? 2 then 31 - ch else ch - 2 in
  rx0 ← load rx 0;
  sample_buf ← store sample_buf rx_ch rx0;
  rx1 ← load rx 1;
  sample_buf ← store sample_buf (rx_ch + 32) rx1;
  mret (rx, sample_buf).

Definition rhd2164_sample_all (dev : rhd_device_t) (sample_buf : list Z) : M (list Z) :=
  let rx := [0; 0] in
  '(rx, sample_buf) ← for_rangeM 32 (sample_all_body dev) (rx, sample_buf);
  s0 ← load sample_buf 0;
  store sample_buf 0 (u16 (Z.land s0 0xFFFE)).

(** ** The rest of the driver: [rhd_cfg_ch], [rhd_calib], [rhd_clear_calib],
    [rhd2000_sample], [rhd_setup], [rhd_init] *)

Variables (CHIP_ID ADC_CFG MUX_LOAD_TEMP_SENS_AUX_DIG_OUT : Z).
Variables (IMP_CHK_CTRL IMP_CHK_DAC IMP_CHK_AMP_SEL : Z).
Variables (IND_AMP_PWR_0 IND_AMP_PWR_1 IND_AMP_PWR_2 IND_AMP_PWR_3 : Z).
Variables (IND_AMP_PWR_4 IND_AMP_PWR_5 IND_AMP_PWR_6 IND_AMP_PWR_7 : Z).

(** Conversion to [uint32_t]. *)
Definition u32 (z : Z) : Z := z mod 2 ^ 32.

(** [static const uint16_t RHD_ADC_CH_CMD_DOUBLE[32]] and
    [RHD_ADC_CH_CMD[32]]. *)
Definition RHD_ADC_CH_CMD_DOUBLE : list Z :=
  [0x00; 0x03; 0x0C; 0x0F; 0x30; 0x33; 0x3C; 0x3F; 0xC0; 0xC3; 0xCC;
   0xCF; 0xF0; 0xF3; 0xFC; 0xFF; 0x300; 0x303; 0x30C; 0x30F; 0x330; 0x333;
   0x33C; 0x33F; 0x3C0; 0x3C3; 0x3CC; 0x3CF; 0x3F0; 0x3F3; 0x3FC; 0x3FF].
Definition RHD_ADC_CH_CMD : list Z :=
  [0; 1; 2; 3; 4; 5; 6; 7; 8; 9; 10; 11; 12; 13; 14; 15; 16; 17; 18; 19; 20;
   21; 22; 23; 24; 25; 26; 27; 28; 29; 30; 31].

Definition rhd_cfg_ch (dev : rhd_device_t) (channels_l channels_h : Z) : M Z :=
  let channels_l := u32 channels_l in
  let channels_h := u32 channels_h in
  _ ← rhd_w dev IND_AMP_PWR_0 (Z.land channels_l 0xFF);
  _ ← rhd_w dev IND_AMP_PWR_1 (Z.land (Z.shiftr channels_l 8) 0xFF);
  _ ← rhd_w dev IND_AMP_PWR_2 (Z.land (Z.shiftr channels_l 16) 0xFF);
  _ ← rhd_w dev IND_AMP_PWR_3 (Z.land (Z.shiftr channels_l 24) 0xFF);
  _ ← rhd_w dev IND_AMP_PWR_4 (Z.land channels_h 0xFF);
  _ ← rhd_w dev IND_AMP_PWR_5 (Z.land (Z.shiftr channels_h 8) 0xFF);
  _ ← rhd_w dev IND_AMP_PWR_6 (Z.land (Z.shiftr channels_h 16) 0xFF);
  rhd_w dev IND_AMP_PWR_7 (Z.land (Z.shiftr channels_h 24) 0xFF).

(** [0b01010101] is [0x55]; the loop keeps the result of its last read. *)
Definition rhd_calib (dev : rhd_device_t) : M Z :=
  ret ← rhd_send dev 0x55 0;
  ret ← for_rangeM 9 (fun _ (_ : Z) => rhd_r dev CHIP_ID) ret;
  mret (u8 ret).

(** [0b01101010] is [0x6A]. *)
Definition rhd_clear_calib (dev : rhd_device_t) : M Z := rhd_send dev 0x6A 0.

(** The local [rx] is not initialised in C; the transfer writes it before
    it is read, whatever it held. *)
Definition rhd2000_sample (dev : rhd_device_t) (ch : Z) : M Z :=
  let ch := u16 ch in
  let tx := u16 (Z.shiftl ch 8) in
  rx ← transfer dev [tx] [0] 1;
  load rx 0.

(** [0b11011110] is [0xDE]. *)
Definition rhd_setup (dev : rhd_device_t) (fs fl fh : spec_float) (dsp : bool)
    (fdsp : spec_float) : M Z :=
  _ ← rhd_r dev CHIP_ID;
  _ ← rhd_r dev CHIP_ID;
  _ ← rhd_w dev ADC_CFG 0xDE;
  _ ← rhd_w dev MUX_LOAD_TEMP_SENS_AUX_DIG_OUT 0;
  _ ← rhd_w dev IMP_CHK_CTRL 0;
  _ ← rhd_w dev IMP_CHK_DAC 0;
  _ ← rhd_w dev IMP_CHK_AMP_SEL 0;
  _ ← rhd_cfg_fs dev fs 32;
  _ ← rhd_cfg_dsp dev true false dsp fdsp fs;
  _ ← rhd_cfg_ch dev 0xFFFFFFFF 0xFFFFFFFF;
  _ ← rhd_cfg_amp_bw dev fl fh;
  _ ← rhd_calib dev;
  rhd_sanity_check dev.

(** [rhd_init] fills the handle and runs the identity check on it; the
    handle it leaves is returned with the result. *)
Definition rhd_init (mode : bool) (rw0 : St -> list Z -> nat -> St * (nat -> Z)) :
    M (rhd_device_t * Z) :=
  let dev := {| double_bits := mode; rw := rw0 |} in
  r ← rhd_sanity_check dev;
  mret (dev, r).

End Driver.

Arguments rhd_device_t : clear implicits.
Arguments world : clear implicits.
Arguments M : clear implicits.

(** ** Reference definitions (the specification's wording)

    These follow the specification's data model; the theorems below relate
    the driver code to them. *)

Module Ref.

(** The physical address byte of a logical access: the address masked to
    six bits under the opcode [11] (read) or [10] (write). *)
Definition read_addr (reg : Z) : Z := Z.lor (Z.land reg 0x3F) 0xC0.
Definition write_addr (reg : Z) : Z := Z.lor (Z.land reg 0x3F) 0x80.

(** One register access on the wire, for an address byte and a payload
    byte: in single mode one word, address byte high and payload low; in
    double mode two words, each byte with its bits duplicated. *)
Definition frame (double : bool) (addr val : Z) : xfer :=
  if double then Xfer [rhd_duplicate_bits addr; rhd_duplicate_bits val] 2
  else Xfer [Z.lor (Z.shiftl addr 8) val] 1.

(** The logical reply taken from the received words [got]: the low byte of
    the word in single mode, stream [a] of the second word in double
    mode. *)
Definition reply (double : bool) (got : nat -> Z) : Z :=
  if double then fst (rhd_unsplit_u16 (u16 (got 1%nat)))
  else u8 (u16 (got 0%nat)).

(** The output slot of [rhd2164_sample_all] for the request index [ch]. *)
Definition slot_of (ch : Z) : Z := if ch <? 2 then 31 - ch else ch - 2.

(** The index of the first position where the letters read differ from the
    signature, if any. *)
Fixpoint first_mismatch (letters sig : list Z) (i : Z) : option Z :=
  match letters, sig with
  | l :: letters', c :: sig' =>
      if l =? c then first_mismatch letters' sig' (i + 1) else Some i
  | _, _ => None
  end.

(** The 16-bit die value of high byte [hi] and low byte [lo], bit 0 set. *)
Definition die_word (hi lo : Z) : Z := Z.lor (Z.lor (Z.shiftl hi 8) lo) 1.

(** The three counting loops of the configuration engine, in one shape:
    the count is raised once per entry until [stop] holds of an entry. *)
Fixpoint count_until {A : Type} (stop : A -> bool) (lut : list A) (i : Z) : Z :=
  match lut with
  | [] => i
  | t :: rest => if stop t then i else count_until stop rest (i + 1)
  end.

End Ref.
Import Ref.

Section RefDriver.

Context {St : Type}.
Implicit Types (dev : rhd_device_t St) (w : world St).

(** One register access: the frame [x] goes to the transport, the reply is
    decoded from what it answers, and the frame is logged. *)
Definition exchange dev (x : xfer) w : Z * world St :=
  let '(c, got) := rw dev (chip w) (xfer_tx x) (xfer_len x) in
  (reply (double_bits dev) got, {| chip := c; wire := wire w ++ [x] |}).

(** Three reads of the same register in a row, the third result kept. *)
Definition read3 dev (reg : Z) w : Z * world St :=
  let x := frame (double_bits dev) (read_addr reg) 0 in
  exchange dev x (snd (exchange dev x (snd (exchange dev x w)))).

(** The letters read from the [n] consecutive registers from [base + i]
    on, each by [read3], one after the other. *)
Fixpoint identity_reads dev (base : Z) (n : nat) (i : Z) w : list Z :=
  match n with
  | O => []
  | S n' =>
      let '(v, w') := read3 dev (base + i) w in
      v :: identity_reads dev base n' (i + 1) w'
  end.

(** The contents of the two-word receive buffer after each request of a
    sweep over the channels [chs], in the order of the requests. *)
Fixpoint sweep_results dev (chs : list nat) (rx : list Z) w : list (Z * Z) :=
  match chs with
  | [] => []
  | ch :: chs' =>
      match rhd2164_sample dev (Z.of_nat ch) rx w with
      | Some (rx', w') => (nth 0 rx' 0, nth 1 rx' 0) :: sweep_results dev chs' rx' w'
      | None => []
      end
  end.

End RefDriver.

(** ** The order of floating-point comparison *)

Module FloatOrder.

(** A key whose lexicographic order is the order of [SFcompare] on the
    values that are not NaN. *)
Definition rank (x : spec_float) : Z * Z * Z :=
  match x with
  | S754_nan => (0, 0, 0)
  | S754_zero _ => (0, 0, 0)
  | S754_infinity true => (-2, 0, 0)
  | S754_infinity false => (2, 0, 0)
  | S754_finite true m e => (-1, - e, - Z.pos m)
  | S754_finite false m e => (1, e, Z.pos m)
  end.

Definition lex_compare (a b : Z * Z * Z) : comparison :=
  let '(a1, a2, a3) := a in
  let '(b1, b2, b3) := b in
  match a1 ?= b1 with
  | Eq => match a2 ?= b2 with
          | Eq => a3 ?= b3
          | c => c
          end
  | c => c
  end.

(** The order on keys, in a form linear arithmetic can use. *)
Definition lex_le (a b : Z * Z * Z) : Prop :=
  let '(a1, a2, a3) := a in
  let '(b1, b2, b3) := b in
  a1 < b1 \/ (a1 = b1 /\ (a2 < b2 \/ (a2 = b2 /\ a3 <= b3))).

(** The order of two [int] table entries once converted to [float]. *)
Definition fle (t u : Z) : Prop := SFleb (f32_of_Z t) (f32_of_Z u) = true.

End FloatOrder.
Import FloatOrder.

(** ** Simulated transports

    Small chips to run the driver on: they keep no state of their own. *)

Module Sim.

(** A chip that answers the same two words to every transfer. *)
Definition fixed_rw (first second : Z) : unit -> list Z -> nat -> unit * (nat -> Z) :=
  fun st _ _ => (st, fun i => match i with O => first | _ => second end).

Definition fixed_dev (double : bool) (first second : Z) : rhd_device_t unit :=
  {| double_bits := double; rw := fixed_rw first second |}.

(** A single-mode chip whose registers [base], [base + 1], ... hold the
    letters [sig] and which answers a read at once with the register
    addressed by the high byte of the word. *)
Definition signature_rw (base : Z) (sig : list Z) :
    unit -> list Z -> nat -> unit * (nat -> Z) :=
  fun st tx _ =>
    let reg := Z.land (Z.shiftr (hd 0 tx) 8) 0x3F in
    (st, fun _ => nth (Z.to_nat (reg - base)) sig 0).

Definition signature_dev (base : Z) (sig : list Z) : rhd_device_t unit :=
  {| double_bits := false; rw := signature_rw base sig |}.

(** Nothing sent yet. *)
Definition idle : world unit := {| chip := tt; wire := [] |}.

End Sim.
Import Sim.

(** ** Transfer logs

    What an operation puts on the wire, frame by frame. *)

Module Log.

(** The frame of a register read, of a register write and of a bare
    command byte. *)
Definition rd (double : bool) (reg : Z) : xfer := frame double (read_addr reg) 0.
Definition wr (double : bool) (reg val : Z) : xfer :=
  frame double (write_addr reg) (u8 val).
Definition cmd (double : bool) (c : Z) : xfer := frame double c 0.

(** Byte [k] of a mask, counted from the least significant. *)
Definition byte_of (z : Z) (k : Z) : Z := Z.land (Z.shiftr z (8 * k)) 0xFF.

(** The frame of a channel-select word in single mode. *)
Definition select (ch : Z) : xfer := Xfer [Z.shiftl (u8 ch) 8] 1.

(** The frame of one request of the dual-die sweep. *)
Definition request (double : bool) (ch : Z) : xfer :=
  if double then Xfer [rhd_duplicate_bits ch; 0] 2 else select ch.

(** The value [rhd_cfg_dsp] writes to the format register for a count
    [dsp_val]. *)
Definition fmt_word (twos_comp abs_mode dsp : bool) (dsp_val : Z) : Z :=
  Z.lor
    (Z.lor
       (Z.lor (Z.lor (Z.shiftl 1 7) (Z.shiftl (Z.b2z twos_comp) 6))
          (Z.shiftl (Z.b2z abs_mode) 5))
       (Z.shiftl (Z.b2z dsp) 4))
    dsp_val.

(** The entry of a table at an index inside it. *)
Definition at_index (lut : list Z) (i : Z) : Z := nth (Z.to_nat i) lut 0.

(** How many leading letters agree with the signature. *)
Fixpoint matching_prefix (letters sig : list Z) : nat :=
  match letters, sig with
  | l :: letters', c :: sig' =>
      if l =? c then S (matching_prefix letters' sig') else O
  | _, _ => O
  end.

(** Three reads of each of the [n] registers from [base + i] on. *)
Fixpoint read_log (double : bool) (base i : Z) (n : nat) : list xfer :=
  match n with
  | O => []
  | S n' => replicate 3 (rd double (base + i)) ++ read_log double base (i + 1) n'
  end.

End Log.
Import Log.

Section LogDefs.

Context {St : Type}.

(** [op] completes from [w] and adds exactly the frames [log] to the
    wire. *)
Definition issues {A : Type} (op : M St A) (w : world St) (log : list xfer) : Prop :=
  exists r w', op w = Some (r, w') /\ wire w' = wire w ++ log.

(** A transport that answers every word with the word it was sent. *)
Definition loopback : St -> list Z -> nat -> St * (nat -> Z) :=
  fun st tx _ => (st, fun i => nth i tx 0).

End LogDefs.

(** * Properties *)

(** ** Bit-level facts used by the codec proofs *)

Lemma u8_testbit (z i : Z) : 0 <= i < 8 -> Z.testbit (u8 z) i = Z.testbit z i.
Proof. intros Hi. unfold u8. apply Z.mod_pow2_bits_low. lia. Qed.

Lemma u16_testbit (z i : Z) : 0 <= i < 16 -> Z.testbit (u16 z) i = Z.testbit z i.
Proof. intros Hi. unfold u16. apply Z.mod_pow2_bits_low. lia. Qed.

Lemma u8_range (z : Z) : 0 <= u8 z < 256.
Proof. unfold u8. apply Z.mod_pos_bound. lia. Qed.

Lemma u16_range (z : Z) : 0 <= u16 z < 65536.
Proof. unfold u16. apply Z.mod_pos_bound. lia. Qed.

Lemma u8_small (z : Z) : 0 <= z < 256 -> u8 z = z.
Proof. intros H. unfold u8. apply Z.mod_small. lia. Qed.

Lemma u16_small (z : Z) : 0 <= z < 65536 -> u16 z = z.
Proof. intros H. unfold u16. apply Z.mod_small. lia. Qed.

Lemma testbit_above (n z i : Z) :
  0 <= n -> 0 <= z < 2 ^ n -> n <= i -> Z.testbit z i = false.
Proof.
  intros Hn Hz Hi. rewrite <- (Z.mod_small z (2 ^ n)) by lia.
  apply Z.mod_pow2_bits_high. lia.
Qed.

Lemma low_bits_range (n z : Z) :
  0 <= n -> (forall k, n <= k -> Z.testbit z k = false) -> 0 <= z < 2 ^ n.
Proof.
  intros Hn Hhigh.
  assert (Hmod : z mod 2 ^ n = z).
  { apply Z.bits_inj'. intros k Hk. destruct (Z.lt_ge_cases k n) as [Hlt|Hge].
    - apply Z.mod_pow2_bits_low. lia.
    - rewrite Z.mod_pow2_bits_high by lia. symmetry. auto. }
  rewrite <- Hmod. apply Z.mod_pos_bound. lia.
Qed.

Lemma byte_eq_bits (a b : Z) :
  0 <= a < 256 -> 0 <= b < 256 ->
  (forall j, 0 <= j < 8 -> Z.testbit a j = Z.testbit b j) -> a = b.
Proof.
  intros Ha Hb Hbits. apply Z.bits_inj'. intros k Hk.
  destruct (Z.lt_ge_cases k 8) as [Hlt|Hge]; [apply Hbits; lia|].
  rewrite (testbit_above 8 a k), (testbit_above 8 b k) by lia. reflexivity.
Qed.

Lemma for_range_S {A : Type} (n : nat) (body : Z -> A -> A) (init : A) :
  for_range (S n) body init = body (Z.of_nat n) (for_range n body init).
Proof.
  unfold for_range. rewrite seq_S, fold_left_app. reflexivity.
Qed.

Lemma testbit_one (m : Z) : Z.testbit 1 m = (m =? 0).
Proof.
  change 1 with (2 ^ 0). rewrite Z.pow2_bits_eqb by lia.
  destruct (Z.eqb_spec 0 m), (Z.eqb_spec m 0); congruence.
Qed.

Lemma shift_arr_nth (n : nat) :
  (n < 8)%nat -> nth n shift_arr 0 = 2 ^ Z.of_nat n.
Proof.
  intros Hn. do 8 (destruct n as [|n]; [reflexivity|]). lia.
Qed.

(** Settle the integer comparisons of the goal that [lia] can decide. *)
Ltac settle_cmp :=
  repeat match goal with
    | |- context [?a <? ?b] =>
        first [ replace (a <? b) with true by (symmetry; apply Z.ltb_lt; lia)
              | replace (a <? b) with false by (symmetry; apply Z.ltb_ge; lia) ]
    | |- context [?a =? ?b] =>
        first [ replace (a =? b) with true by (symmetry; apply Z.eqb_eq; lia)
              | replace (a =? b) with false by (symmetry; apply Z.eqb_neq; lia) ]
    end.

(** Push [Z.testbit] through the bit operations of the goal. *)
Ltac push_testbit :=
  repeat match goal with
    | |- context [Z.testbit (Z.lor ?a ?b) ?m] => rewrite (Z.lor_spec a b m)
    | |- context [Z.testbit (Z.land ?a ?b) ?m] => rewrite (Z.land_spec a b m)
    | |- context [Z.testbit ?a ?m] => rewrite (Z.testbit_neg_r a m) by lia
    | |- context [Z.testbit (Z.shiftr ?a ?n) ?m] =>
        rewrite (Z.shiftr_spec a n m) by lia
    | |- context [Z.testbit (Z.shiftl ?a ?n) ?m] =>
        rewrite (Z.shiftl_spec a n m) by lia
    | |- context [Z.testbit 1 ?m] => rewrite (testbit_one m)
    end.

(** State of the loop of [rhd_duplicate_bits] after [n] rounds: the pairs
    of output bits below position [2n] are written, the rest are clear. *)
Lemma dup_loop_bits (val : Z) (n : nat) (j : Z) :
  0 <= j ->
  let out := for_range n
    (fun i out =>
       let tmp := Z.land (Z.shiftr val i) 1 in
       Z.lor out (Z.shiftl (Z.lor (Z.shiftl tmp 1) tmp) (2 * i))) 0 in
  Z.testbit out (2 * j) = (j <? Z.of_nat n) && Z.testbit val j /\
  Z.testbit out (2 * j + 1) = (j <? Z.of_nat n) && Z.testbit val j.
Proof.
  intros Hj. induction n as [|n IH].
  - cbn [for_range seq fold_left]. rewrite !Z.testbit_0_l. settle_cmp. auto.
  - cbv zeta in *. rewrite for_range_S. destruct IH as [IHe IHo].
    rewrite !Z.lor_spec, IHe, IHo.
    destruct (Z.lt_trichotomy j (Z.of_nat n)) as [Hlt|[Heq|Hgt]].
    + push_testbit. settle_cmp. rewrite ?orb_false_r. auto.
    + subst j. push_testbit. settle_cmp.
      replace (2 * Z.of_nat n - 2 * Z.of_nat n + Z.of_nat n)
        with (Z.of_nat n) by lia.
      replace (2 * Z.of_nat n + 1 - 2 * Z.of_nat n - 1 + Z.of_nat n)
        with (Z.of_nat n) by lia.
      cbn [andb orb]. rewrite ?andb_true_r, ?andb_false_r, ?orb_false_r. auto.
    + push_testbit. settle_cmp. rewrite !andb_false_r. auto.
Qed.

Lemma dup_testbit_pair (val j : Z) :
  0 <= j ->
  Z.testbit (rhd_duplicate_bits val) (2 * j) = (j <? 8) && Z.testbit (u8 val) j /\
  Z.testbit (rhd_duplicate_bits val) (2 * j + 1) = (j <? 8) && Z.testbit (u8 val) j.
Proof.
  intros Hj. pose proof (dup_loop_bits (u8 val) 8 j Hj) as H. exact H.
Qed.

Lemma dup_testbit_even (val j : Z) :
  0 <= j < 8 -> Z.testbit (rhd_duplicate_bits val) (2 * j) = Z.testbit val j.
Proof.
  intros Hj. destruct (dup_testbit_pair val j) as [He _]; [lia|].
  rewrite He, u8_testbit by lia. settle_cmp. reflexivity.
Qed.

Lemma dup_testbit_odd (val j : Z) :
  0 <= j < 8 -> Z.testbit (rhd_duplicate_bits val) (2 * j + 1) = Z.testbit val j.
Proof.
  intros Hj. destruct (dup_testbit_pair val j) as [_ Ho]; [lia|].
  rewrite Ho, u8_testbit by lia. settle_cmp. reflexivity.
Qed.

Lemma dup_range (val : Z) : 0 <= rhd_duplicate_bits val < 65536.
Proof.
  change 65536 with (2 ^ 16). apply low_bits_range; [lia|].
  intros k Hk. destruct (Z.even k) eqn:Hpar.
  - apply Z.even_spec in Hpar. destruct Hpar as [j ->].
    destruct (dup_testbit_pair val j) as [He _]; [lia|].
    rewrite He. settle_cmp. reflexivity.
  - rewrite <- Z.negb_odd in Hpar. apply negb_false_iff, Z.odd_spec in Hpar.
    destruct Hpar as [j ->].
    destruct (dup_testbit_pair val j) as [_ Ho]; [lia|].
    rewrite Ho. settle_cmp. reflexivity.
Qed.

(** State of the loop of [rhd_unsplit_u16] after [n] rounds. *)
Lemma unsplit_loop_bits (data dataa : Z) (n : nat) (j : Z) :
  (n <= 8)%nat -> 0 <= j < 8 ->
  let st := for_range n
    (fun i '(aa, bb) =>
       let s := nth (Z.to_nat i) shift_arr 0 in
       (u8 (Z.lor aa (Z.land (Z.shiftr dataa i) s)),
        u8 (Z.lor bb (Z.land (Z.shiftr data i) s)))) (0, 0) in
  (Z.testbit (fst st) j = (j <? Z.of_nat n) && Z.testbit dataa (2 * j) /\
   Z.testbit (snd st) j = (j <? Z.of_nat n) && Z.testbit data (2 * j)) /\
  0 <= fst st < 256 /\ 0 <= snd st < 256.
Proof.
  intros Hn Hj. cbv zeta. induction n as [|n IH].
  - cbn [for_range seq fold_left fst snd]. rewrite !Z.testbit_0_l. settle_cmp.
    cbn [andb]. repeat split; lia.
  - rewrite for_range_S. destruct IH as [[IHa IHb] _]; [lia|].
    destruct (for_range n _ (0, 0)) as [aa bb]. cbn [fst snd] in *.
    rewrite Nat2Z.id, shift_arr_nth by lia.
    split; [|split; apply u8_range].
    rewrite !u8_testbit by lia. push_testbit. rewrite IHa, IHb.
    rewrite !Z.pow2_bits_eqb by lia.
    destruct (Z.lt_trichotomy j (Z.of_nat n)) as [Hlt|[Heq|Hgt]].
    + settle_cmp. rewrite !andb_false_r, !orb_false_r. auto.
    + subst j. settle_cmp.
      replace (Z.of_nat n + Z.of_nat n) with (2 * Z.of_nat n) by lia.
      cbn [andb orb]. rewrite !andb_true_r. auto.
    + settle_cmp. rewrite !andb_false_r. auto.
Qed.

Lemma unsplit_a_testbit (data j : Z) :
  0 <= j < 8 ->
  Z.testbit (fst (rhd_unsplit_u16 data)) j = Z.testbit data (2 * j + 1).
Proof.
  intros Hj.
  pose proof (unsplit_loop_bits (u16 data) (u16 (Z.shiftr (u16 data) 1)) 8 j
                ltac:(lia) Hj) as H.
  cbv zeta in H. destruct H as [[Ha _] _]. unfold rhd_unsplit_u16.
  rewrite Ha. settle_cmp. cbn [andb].
  rewrite u16_testbit, Z.shiftr_spec, u16_testbit by lia. reflexivity.
Qed.

Lemma unsplit_b_testbit (data j : Z) :
  0 <= j < 8 ->
  Z.testbit (snd (rhd_unsplit_u16 data)) j = Z.testbit data (2 * j).
Proof.
  intros Hj.
  pose proof (unsplit_loop_bits (u16 data) (u16 (Z.shiftr (u16 data) 1)) 8 j
                ltac:(lia) Hj) as H.
  cbv zeta in H. destruct H as [[_ Hb] _]. unfold rhd_unsplit_u16.
  rewrite Hb. settle_cmp. cbn [andb]. rewrite u16_testbit by lia. reflexivity.
Qed.

Lemma unsplit_range (data : Z) :
  0 <= fst (rhd_unsplit_u16 data) < 256 /\ 0 <= snd (rhd_unsplit_u16 data) < 256.
Proof.
  pose proof (unsplit_loop_bits (u16 data) (u16 (Z.shiftr (u16 data) 1)) 8 0
                ltac:(lia) ltac:(lia)) as H.
  cbv zeta in H. exact (proj2 H).
Qed.

(** ** BitCodec *)

(** C1, as the specification words it, fails on the word [0b10]: bit 1 of
    the word is set, yet stream [b] is [0], because [b] collects the
    even-numbered bits of the word (and [a] the odd-numbered ones), not its
    low byte. *)
Lemma unsplit_low_byte_reading_fails :
  ~ (forall i, 0 <= i < 8 ->
       Z.testbit (snd (rhd_unsplit_u16 2)) i = Z.testbit 2 i /\
       Z.testbit (fst (rhd_unsplit_u16 2)) i = Z.testbit (Z.shiftr 2 1) i).
Proof.
  intros H. destruct (H 1 ltac:(lia)) as [Hb _]. vm_compute in Hb. discriminate.
Qed.

(** C1 (amended): for every 16-bit word [w] and bit position [i] in 0..7,
    bit [i] of stream [b] is bit [2i] of [w], and bit [i] of stream [a] is
    bit [2i] of [w >> 1], that is bit [2i+1] of [w]; both streams are
    bytes. *)
Theorem unsplit_deinterleaves (w i : Z) :
  0 <= w < 65536 -> 0 <= i < 8 ->
  let '(a, b) := rhd_unsplit_u16 w in
  Z.testbit b i = Z.testbit w (2 * i) /\
  Z.testbit a i = Z.testbit (Z.shiftr w 1) (2 * i) /\
  Z.testbit a i = Z.testbit w (2 * i + 1) /\
  0 <= a < 256 /\ 0 <= b < 256.
Proof.
  intros Hw Hi.
  pose proof (unsplit_a_testbit w i Hi) as Ha.
  pose proof (unsplit_b_testbit w i Hi) as Hb.
  pose proof (unsplit_range w) as [Hra Hrb].
  destruct (rhd_unsplit_u16 w) as [a b]. cbn [fst snd] in *.
  rewrite Z.shiftr_spec by lia. auto.
Qed.

Lemma unsplit_deinterleaves_witness :
  let '(a, b) := rhd_unsplit_u16 0x6 in
  Z.testbit b 1 = Z.testbit 0x6 (2 * 1) /\
  Z.testbit a 1 = Z.testbit (Z.shiftr 0x6 1) (2 * 1) /\
  Z.testbit a 1 = Z.testbit 0x6 (2 * 1 + 1) /\
  0 <= a < 256 /\ 0 <= b < 256.
Proof. apply (unsplit_deinterleaves 0x6 1); lia. Defined.

(** C8: for every 8-bit [v], [rhd_duplicate_bits v] is a 16-bit value whose
    bits [2i] and [2i+1] both equal bit [i] of [v], for [i] in 0..7; and the
    four documented values ([0x53] is [0b01010011], [0x80] is [0b10000000]). *)
Theorem duplicate_bits_doubles (v : Z) :
  0 <= v < 256 ->
  (0 <= rhd_duplicate_bits v < 65536 /\
   forall i, 0 <= i < 8 ->
     Z.testbit (rhd_duplicate_bits v) (2 * i) = Z.testbit v i /\
     Z.testbit (rhd_duplicate_bits v) (2 * i + 1) = Z.testbit v i) /\
  rhd_duplicate_bits 0x00 = 0x0000 /\
  rhd_duplicate_bits 0xFF = 0xFFFF /\
  rhd_duplicate_bits 0x53 = 0x330F /\
  rhd_duplicate_bits 0x80 = 0xC000.
Proof.
  intros Hv. split; [split|].
  - apply dup_range.
  - intros i Hi. split; [apply dup_testbit_even | apply dup_testbit_odd]; lia.
  - repeat split; reflexivity.
Qed.

Lemma duplicate_bits_doubles_witness :
  (0 <= rhd_duplicate_bits 0xA5 < 65536 /\
   forall i, 0 <= i < 8 ->
     Z.testbit (rhd_duplicate_bits 0xA5) (2 * i) = Z.testbit 0xA5 i /\
     Z.testbit (rhd_duplicate_bits 0xA5) (2 * i + 1) = Z.testbit 0xA5 i) /\
  rhd_duplicate_bits 0x00 = 0x0000 /\
  rhd_duplicate_bits 0xFF = 0xFFFF /\
  rhd_duplicate_bits 0x53 = 0x330F /\
  rhd_duplicate_bits 0x80 = 0xC000.
Proof. apply (duplicate_bits_doubles 0xA5); lia. Defined.

(** C10: for every 8-bit [v], de-interleaving the duplicated word gives
    [v] back on both streams. *)
Theorem unsplit_duplicate_bits (v : Z) :
  0 <= v < 256 -> rhd_unsplit_u16 (rhd_duplicate_bits v) = (v, v).
Proof.
  intros Hv.
  pose proof (unsplit_range (rhd_duplicate_bits v)) as [Hra Hrb].
  rewrite (surjective_pairing (rhd_unsplit_u16 (rhd_duplicate_bits v))).
  f_equal; apply byte_eq_bits; try lia; intros j Hj.
  - rewrite unsplit_a_testbit by lia. apply dup_testbit_odd; lia.
  - rewrite unsplit_b_testbit by lia. apply dup_testbit_even; lia.
Qed.

Lemma unsplit_duplicate_bits_witness :
  rhd_unsplit_u16 (rhd_duplicate_bits 0x53) = (0x53, 0x53).
Proof. apply (unsplit_duplicate_bits 0x53); lia. Defined.

(** ** CommandCodec *)

Lemma u8_u16 (z : Z) : u8 (u16 z) = u8 z.
Proof.
  apply byte_eq_bits; try apply u8_range. intros j Hj.
  rewrite !u8_testbit, u16_testbit by lia. reflexivity.
Qed.

Lemma land_byte (z : Z) : Z.land z 0xFF = u8 z.
Proof. change 0xFF with (Z.ones 8). unfold u8. apply Z.land_ones. lia. Qed.

Lemma land_six_bits (z i : Z) :
  0 <= i -> Z.testbit (Z.land z 0x3F) i = (i <? 6) && Z.testbit z i.
Proof.
  intros Hi. change 0x3F with (Z.ones 6). rewrite Z.land_ones by lia.
  destruct (Z.ltb_spec i 6).
  - rewrite Z.mod_pow2_bits_low by lia. reflexivity.
  - rewrite Z.mod_pow2_bits_high by lia. reflexivity.
Qed.

(** The word sent in single mode: address byte high, payload byte low. *)
Lemma single_word (reg val : Z) :
  u16 (Z.lor (Z.shiftl (u16 reg) 8) (Z.land (u16 val) 0xFF)) =
  Z.lor (Z.shiftl (u8 reg) 8) (u8 val).
Proof.
  rewrite land_byte, u8_u16. apply Z.bits_inj'. intros k Hk.
  destruct (Z.lt_ge_cases k 16) as [Hlt|Hge].
  - rewrite u16_testbit by lia. rewrite !Z.lor_spec. f_equal.
    destruct (Z.lt_ge_cases k 8) as [Hlo|Hhi].
    + rewrite !Z.shiftl_spec_low by lia. reflexivity.
    + rewrite !Z.shiftl_spec by lia.
      rewrite u16_testbit, u8_testbit by lia. reflexivity.
  - unfold u16 at 1. rewrite Z.mod_pow2_bits_high by lia.
    rewrite Z.lor_spec, Z.shiftl_spec by lia.
    rewrite (testbit_above 8 (u8 reg)), (testbit_above 8 (u8 val));
      try reflexivity; try lia; apply u8_range.
Qed.

Section CommandFacts.

Context {St : Type}.
Implicit Types (dev : rhd_device_t St) (w : world St).

(** [rhd_send] always completes: it issues the one transfer [frame] and
    returns the [reply] decoded from what the transport answered. *)
Lemma rhd_send_spec dev reg val w :
  rhd_send dev reg val w =
  let x := frame (double_bits dev) (u8 reg) (u8 val) in
  let '(c, got) := rw dev (chip w) (xfer_tx x) (xfer_len x) in
  Some (reply (double_bits dev) got, {| chip := c; wire := wire w ++ [x] |}).
Proof.
  unfold rhd_send, frame, reply. destruct (double_bits dev).
  - unfold mbind, M_bind, transfer. cbn [length Nat.leb andb xfer_tx xfer_len].
    rewrite !(u16_small (rhd_duplicate_bits _)) by apply dup_range.
    assert (Hd : forall z, rhd_duplicate_bits (u16 z) = rhd_duplicate_bits (u8 z)).
    { intros z. unfold rhd_duplicate_bits. rewrite u8_u16, (u8_small (u8 z)).
      - reflexivity.
      - apply u8_range. }
    rewrite !Hd. destruct (rw dev (chip w) _ 2) as [c got].
    cbn. destruct (rhd_unsplit_u16 (u16 (got 1%nat))) as [rx_a rx_b].
    reflexivity.
  - unfold mbind, M_bind, transfer. cbn [length Nat.leb andb xfer_tx xfer_len].
    rewrite single_word. destruct (rw dev (chip w) _ 1) as [c got].
    replace (u8 (u16 (got 0%nat))) with (u8 (Z.land (u16 (got 0%nat)) 0xFF))
      by (rewrite land_byte; apply u8_small, u8_range).
    reflexivity.
Qed.

End CommandFacts.

(** The address byte built by [rhd_r] and [rhd_w]: the low six bits of the
    register under the opcode bits [op]. *)
Lemma opcode_addr_testbit (op reg i : Z) :
  0 <= i ->
  Z.testbit (Z.lor (Z.land reg 0x3F) op) i =
  (i <? 6) && Z.testbit reg i || Z.testbit op i.
Proof. intros Hi. rewrite Z.lor_spec, land_six_bits by lia. reflexivity. Qed.

Lemma opcode_addr_range (op reg : Z) :
  0 <= op < 256 -> 0 <= Z.lor (Z.land reg 0x3F) op < 256.
Proof.
  intros Hop. change 256 with (2 ^ 8). apply low_bits_range; [lia|].
  intros k Hk. rewrite opcode_addr_testbit by lia.
  rewrite (testbit_above 8 op k) by lia. settle_cmp. reflexivity.
Qed.

Lemma six_bits_u16 (reg : Z) : Z.land (u16 reg) 0x3F = Z.land reg 0x3F.
Proof.
  apply Z.bits_inj'. intros k Hk. rewrite !land_six_bits by lia.
  destruct (Z.ltb_spec k 6); [|reflexivity].
  rewrite u16_testbit by lia. reflexivity.
Qed.

Lemma six_bits_opcode (op reg : Z) :
  Z.land op 0x3F = 0 -> Z.land (Z.lor reg op) 0x3F = Z.land reg 0x3F.
Proof. intros Hop. rewrite Z.land_lor_distr_l, Hop, Z.lor_0_r. reflexivity. Qed.

Lemma six_bits_addr (op reg : Z) :
  Z.land op 0x3F = 0 -> Z.land (Z.lor (Z.land reg 0x3F) op) 0x3F = Z.land reg 0x3F.
Proof.
  intros Hop. rewrite six_bits_opcode by exact Hop.
  rewrite <- Z.land_assoc. reflexivity.
Qed.

Lemma addr_byte_conv (op reg : Z) :
  0 <= op < 256 ->
  u8 (u16 (Z.lor (Z.land (u16 reg) 0x3F) op)) = Z.lor (Z.land reg 0x3F) op.
Proof.
  intros Hop. rewrite six_bits_u16, u8_u16. apply u8_small, opcode_addr_range, Hop.
Qed.

Lemma high_byte_of_word (addr v : Z) :
  0 <= v < 256 ->
  Z.shiftr (hd 0 (xfer_tx (frame false addr v))) 8 = addr.
Proof.
  intros Hv. cbn [frame xfer_tx hd].
  rewrite Z.shiftr_lor, Z.shiftr_shiftl_l, Z.sub_diag, Z.shiftl_0_r by lia.
  rewrite (Z.shiftr_div_pow2 v), Z.div_small, Z.lor_0_r by lia. reflexivity.
Qed.

(** Both copies of bit [j] of the address byte in the first word sent in
    double mode. *)
Lemma dup_opcode_bits (addr j : Z) (b : bool) (v : Z) :
  0 <= j < 8 -> Z.testbit addr j = b ->
  Z.testbit (hd 0 (xfer_tx (frame true addr v))) (2 * j + 1) = b /\
  Z.testbit (hd 0 (xfer_tx (frame true addr v))) (2 * j) = b.
Proof.
  intros Hj Hb. cbn [frame xfer_tx hd].
  rewrite dup_testbit_odd, dup_testbit_even by lia. auto.
Qed.

Section AccessFacts.

Context {St : Type}.
Implicit Types (dev : rhd_device_t St) (w : world St).

Lemma rhd_r_spec dev reg w :
  rhd_r dev reg w =
  let x := frame (double_bits dev) (read_addr reg) 0 in
  let '(c, got) := rw dev (chip w) (xfer_tx x) (xfer_len x) in
  Some (reply (double_bits dev) got, {| chip := c; wire := wire w ++ [x] |}).
Proof.
  unfold rhd_r. rewrite rhd_send_spec, addr_byte_conv by lia. reflexivity.
Qed.

Lemma rhd_w_spec dev reg val w :
  rhd_w dev reg val w =
  let x := frame (double_bits dev) (write_addr reg) (u8 val) in
  let '(c, got) := rw dev (chip w) (xfer_tx x) (xfer_len x) in
  Some (reply (double_bits dev) got, {| chip := c; wire := wire w ++ [x] |}).
Proof.
  unfold rhd_w. rewrite rhd_send_spec, addr_byte_conv, u8_u16 by lia. reflexivity.
Qed.

(** C9: whatever the register value, [rhd_r] completes and puts on the wire
    the frame of the address byte [(reg & 0x3F) | 0xC0], whose bits 7 and 6
    are 1 and 1, and [rhd_w] that of [(reg & 0x3F) | 0x80], whose bits 7 and
    6 are 1 and 0; the low six bits of the byte are those of the register;
    in single mode the byte is the high byte of the word sent, in double
    mode the opcode shows as the top two bit pairs of the first word; and
    setting the opcode bits in the argument beforehand changes neither
    call. *)
Theorem access_opcode_bits dev reg val w :
  (exists res c,
     rhd_r dev reg w =
     Some (res, {| chip := c;
                   wire := wire w ++ [frame (double_bits dev) (read_addr reg) 0] |})) /\
  (exists res c,
     rhd_w dev reg val w =
     Some (res, {| chip := c;
                   wire := wire w ++
                           [frame (double_bits dev) (write_addr reg) (u8 val)] |})) /\
  (0 <= read_addr reg < 256 /\
   Z.testbit (read_addr reg) 7 = true /\ Z.testbit (read_addr reg) 6 = true /\
   Z.land (read_addr reg) 0x3F = Z.land reg 0x3F) /\
  (0 <= write_addr reg < 256 /\
   Z.testbit (write_addr reg) 7 = true /\ Z.testbit (write_addr reg) 6 = false /\
   Z.land (write_addr reg) 0x3F = Z.land reg 0x3F) /\
  (Z.shiftr (hd 0 (xfer_tx (frame false (read_addr reg) 0))) 8 = read_addr reg /\
   Z.shiftr (hd 0 (xfer_tx (frame false (write_addr reg) (u8 val)))) 8 =
   write_addr reg) /\
  (let word := hd 0 (xfer_tx (frame true (read_addr reg) 0)) in
   Z.testbit word 15 = true /\ Z.testbit word 14 = true /\
   Z.testbit word 13 = true /\ Z.testbit word 12 = true) /\
  (let word := hd 0 (xfer_tx (frame true (write_addr reg) (u8 val))) in
   Z.testbit word 15 = true /\ Z.testbit word 14 = true /\
   Z.testbit word 13 = false /\ Z.testbit word 12 = false) /\
  rhd_r dev (Z.lor reg 0xC0) w = rhd_r dev reg w /\
  rhd_w dev (Z.lor reg 0xC0) val w = rhd_w dev reg val w /\
  rhd_w dev (Z.lor reg 0x80) val w = rhd_w dev reg val w.
Proof.
  repeat apply conj.
  - rewrite rhd_r_spec. cbv zeta. destruct (rw dev _ _ _) as [c got]. eauto.
  - rewrite rhd_w_spec. cbv zeta. destruct (rw dev _ _ _) as [c got]. eauto.
  - apply opcode_addr_range. lia.
  - apply opcode_addr_range. lia.
  - unfold read_addr. rewrite opcode_addr_testbit by lia. reflexivity.
  - unfold read_addr. rewrite opcode_addr_testbit by lia. reflexivity.
  - apply six_bits_addr. reflexivity.
  - apply opcode_addr_range. lia.
  - apply opcode_addr_range. lia.
  - unfold write_addr. rewrite opcode_addr_testbit by lia. reflexivity.
  - unfold write_addr. rewrite opcode_addr_testbit by lia. reflexivity.
  - apply six_bits_addr. reflexivity.
  - apply high_byte_of_word. lia.
  - apply high_byte_of_word, u8_range.
  - apply (dup_opcode_bits (read_addr reg) 7); [lia|].
    unfold read_addr. rewrite opcode_addr_testbit by lia. reflexivity.
  - apply (dup_opcode_bits (read_addr reg) 7); [lia|].
    unfold read_addr. rewrite opcode_addr_testbit by lia. reflexivity.
  - apply (dup_opcode_bits (read_addr reg) 6); [lia|].
    unfold read_addr. rewrite opcode_addr_testbit by lia. reflexivity.
  - apply (dup_opcode_bits (read_addr reg) 6); [lia|].
    unfold read_addr. rewrite opcode_addr_testbit by lia. reflexivity.
  - apply (dup_opcode_bits (write_addr reg) 7); [lia|].
    unfold write_addr. rewrite opcode_addr_testbit by lia. reflexivity.
  - apply (dup_opcode_bits (write_addr reg) 7); [lia|].
    unfold write_addr. rewrite opcode_addr_testbit by lia. reflexivity.
  - apply (dup_opcode_bits (write_addr reg) 6); [lia|].
    unfold write_addr. rewrite opcode_addr_testbit by lia. reflexivity.
  - apply (dup_opcode_bits (write_addr reg) 6); [lia|].
    unfold write_addr. rewrite opcode_addr_testbit by lia. reflexivity.
  - rewrite !rhd_r_spec. unfold read_addr.
    rewrite (six_bits_opcode 0xC0 reg) by reflexivity. reflexivity.
  - rewrite !rhd_w_spec. unfold write_addr.
    rewrite (six_bits_opcode 0xC0 reg) by reflexivity. reflexivity.
  - rewrite !rhd_w_spec. unfold write_addr.
    rewrite (six_bits_opcode 0x80 reg) by reflexivity. reflexivity.
Qed.

End AccessFacts.

(** ** DeviceLifecycle: the identity check *)

Lemma reply_range (double : bool) (got : nat -> Z) : 0 <= reply double got < 256.
Proof.
  unfold reply. destruct double; [exact (proj1 (unsplit_range _)) | apply u8_range].
Qed.

(** [(char)] is one-to-one on the values of a byte, whichever the
    signedness of [char]. *)
Lemma to_char_inj (sgn : bool) (a b : Z) :
  0 <= a < 256 -> 0 <= b < 256 -> (to_char sgn a =? to_char sgn b) = (a =? b).
Proof.
  intros Ha Hb. unfold to_char.
  destruct sgn; cbn [andb]; [|reflexivity].
  destruct (Z.leb_spec 128 a), (Z.leb_spec 128 b);
    destruct (Z.eqb_spec a b) as [->|Hne];
    rewrite ?Z.eqb_refl; try reflexivity; try lia; apply Z.eqb_neq; lia.
Qed.

Lemma char_code_range (c : ascii) : 0 <= char_code c < 256.
Proof.
  unfold char_code. pose proof (N_ascii_bounded c) as H. lia.
Qed.

Section LifecycleFacts.

Context {St : Type}.
Implicit Types (dev : rhd_device_t St) (w : world St).

Lemma rhd_r_exchange dev reg w :
  rhd_r dev reg w =
  Some (exchange dev (frame (double_bits dev) (read_addr reg) 0) w).
Proof.
  rewrite rhd_r_spec. unfold exchange. cbv zeta.
  destruct (rw dev _ _ _) as [c got]. reflexivity.
Qed.

Lemma exchange_range dev x w : 0 <= fst (exchange dev x w) < 256.
Proof.
  unfold exchange. destruct (rw dev _ _ _) as [c got]. apply reply_range.
Qed.

Lemma exchange_wire dev x w : wire (snd (exchange dev x w)) = wire w ++ [x].
Proof.
  unfold exchange. destruct (rw dev _ _ _) as [c got]. reflexivity.
Qed.

Lemma rhd_read_force_spec dev reg w :
  rhd_read_force dev reg w = Some (read3 dev reg w).
Proof.
  unfold rhd_read_force, for_rangeM, read3. cbn [seq forM].
  unfold mbind, M_bind, mret, M_ret. rewrite rhd_r_exchange.
  destruct (exchange dev _ w) as [v1 w1]. cbn [snd]. rewrite rhd_r_exchange.
  destruct (exchange dev _ w1) as [v2 w2]. cbn [snd]. apply rhd_r_exchange.
Qed.

Lemma read3_range dev reg w : 0 <= fst (read3 dev reg w) < 256.
Proof. apply exchange_range. Qed.

Lemma read3_wire dev reg w :
  let x := frame (double_bits dev) (read_addr reg) 0 in
  wire (snd (read3 dev reg w)) = wire w ++ [x; x; x].
Proof.
  cbv zeta. unfold read3. rewrite !exchange_wire, <- !app_assoc. reflexivity.
Qed.

(** The loop of the identity check against the letters read in a row. *)
Lemma sanity_loop_spec (base : Z) (sgn : bool) dev (sig : list ascii) (i : Z) w :
  exists w',
    sanity_loop base sgn dev sig i w =
    Some (match first_mismatch (identity_reads dev base (length sig) i w)
                  (map char_code sig) i with
          | None => 0
          | Some k => k + base
          end, w').
Proof.
  revert i w. induction sig as [|c sig IH]; intros i w.
  - exists w. reflexivity.
  - cbn [sanity_loop length identity_reads map].
    unfold mbind, M_bind. rewrite rhd_read_force_spec.
    pose proof (read3_range dev (base + i) w) as Hv.
    destruct (read3 dev (base + i) w) as [v w1]. cbn [fst] in Hv.
    cbn [first_mismatch].
    rewrite to_char_inj by (try apply char_code_range; lia).
    destruct (v =? char_code c); cbn [negb].
    + apply IH.
    + exists w1. reflexivity.
Qed.

(** C7: [rhd_read_force] is three reads of the same register in a row, the
    third result kept; [rhd_sanity_check] always completes, and, of the
    letters so read from the five registers from [INTAN_0] on, compared in
    order with the codes of "INTAN", it returns 0 when none differs and
    otherwise [INTAN_0] plus the index of the first that differs. *)
Theorem sanity_check_result (INTAN_0 : Z) (char_is_signed : bool) dev w :
  (forall reg w0,
     rhd_read_force dev reg w0 = Some (read3 dev reg w0) /\
     let x := frame (double_bits dev) (read_addr reg) 0 in
     wire (snd (read3 dev reg w0)) = wire w0 ++ [x; x; x]) /\
  map char_code (list_ascii_of_string INTAN) = [73; 78; 84; 65; 78] /\
  exists w',
    rhd_sanity_check INTAN_0 char_is_signed dev w =
    Some (match first_mismatch (identity_reads dev INTAN_0 5 0 w)
                  [73; 78; 84; 65; 78] 0 with
          | None => 0
          | Some i => INTAN_0 + i
          end, w').
Proof.
  split; [|split].
  - intros reg w0. split; [apply rhd_read_force_spec | apply read3_wire].
  - reflexivity.
  - destruct (sanity_loop_spec INTAN_0 char_is_signed dev
                (list_ascii_of_string INTAN) 0 w) as [w' Hw'].
    exists w'. unfold rhd_sanity_check. rewrite Hw'.
    change (map char_code (list_ascii_of_string INTAN)) with [73; 78; 84; 65; 78].
    change (length (list_ascii_of_string INTAN)) with 5%nat.
    destruct (first_mismatch _ _ 0) as [k|]; [|reflexivity].
    do 2 f_equal. lia.
Qed.

End LifecycleFacts.

(** ** The order of floating-point comparison *)

Lemma SFcompare_rank (x y : spec_float) :
  is_nan x = false -> is_nan y = false ->
  SFcompare x y = Some (lex_compare (rank x) (rank y)).
Proof.
  intros Hx Hy.
  destruct x as [sx|sx| |sx mx ex], y as [sy|sy| |sy my ey];
    try discriminate; try (destruct sx); try (destruct sy); try reflexivity.
  cbn [SFcompare rank lex_compare]. change (-1 ?= -1) with Eq. cbv iota.
    rewrite Z.compare_opp, (Z.compare_antisym ex ey).
    destruct (ex ?= ey); reflexivity.
Qed.

Lemma lex_compare_le (a b : Z * Z * Z) :
  lex_le a b <-> lex_compare a b <> Gt.
Proof.
  destruct a as [[a1 a2] a3], b as [[b1 b2] b3]. unfold lex_le, lex_compare.
  destruct (Z.compare_spec a1 b1), (Z.compare_spec a2 b2), (Z.compare_spec a3 b3);
    split; intros Hgoal; try discriminate; try congruence; try lia.
Qed.

Lemma SFleb_rank (x y : spec_float) :
  is_nan x = false -> is_nan y = false ->
  SFleb x y = true <-> lex_le (rank x) (rank y).
Proof.
  intros Hx Hy. unfold SFleb. rewrite SFcompare_rank by assumption.
  rewrite lex_compare_le. destruct (lex_compare (rank x) (rank y));
    split; intros H; congruence.
Qed.

Lemma lex_compare_antisym (a b : Z * Z * Z) :
  lex_compare b a = CompOpp (lex_compare a b).
Proof.
  destruct a as [[a1 a2] a3], b as [[b1 b2] b3]. unfold lex_compare.
  rewrite (Z.compare_antisym a1 b1), (Z.compare_antisym a2 b2),
    (Z.compare_antisym a3 b3).
  destruct (a1 ?= b1), (a2 ?= b2), (a3 ?= b3); reflexivity.
Qed.

Lemma SFltb_rank (x y : spec_float) :
  is_nan x = false -> is_nan y = false ->
  SFltb x y = true <-> ~ lex_le (rank y) (rank x).
Proof.
  intros Hx Hy. unfold SFltb. rewrite SFcompare_rank by assumption.
  rewrite lex_compare_le, (lex_compare_antisym (rank x) (rank y)).
  destruct (lex_compare (rank x) (rank y)); cbn [CompOpp];
    split; intros Hgoal; try discriminate; try congruence; try reflexivity.
  - exfalso. apply Hgoal. discriminate.
  - exfalso. apply Hgoal. discriminate.
Qed.

Lemma SFleb_not_nan (x y : spec_float) :
  SFleb x y = true -> is_nan x = false /\ is_nan y = false.
Proof.
  unfold SFleb. destruct x, y; cbn; intros H; try discriminate; auto.
Qed.

Lemma SFleb_trans (x y z : spec_float) :
  SFleb x y = true -> SFleb y z = true -> SFleb x z = true.
Proof.
  intros Hxy Hyz.
  destruct (SFleb_not_nan x y Hxy) as [Hx Hy].
  destruct (SFleb_not_nan y z Hyz) as [_ Hz].
  rewrite SFleb_rank in * by assumption.
  destruct (rank x) as [[a1 a2] a3], (rank y) as [[b1 b2] b3],
    (rank z) as [[c1 c2] c3].
  unfold lex_le in *. lia.
Qed.

Lemma SFleb_false_ltb (x y : spec_float) :
  is_nan x = false -> is_nan y = false -> SFleb x y = false -> SFltb y x = true.
Proof.
  intros Hx Hy Hle. apply SFltb_rank; try assumption.
  intros Hr. apply SFleb_rank in Hr; try assumption. congruence.
Qed.

Lemma SFleb_true_ltb (x y : spec_float) :
  SFleb x y = true -> SFltb y x = false.
Proof.
  intros Hle. destruct (SFleb_not_nan x y Hle) as [Hx Hy].
  destruct (SFltb y x) eqn:Hlt; [|reflexivity].
  apply SFltb_rank in Hlt; try assumption.
  apply SFleb_rank in Hle; try assumption. contradiction.
Qed.

(** The selection loop of [rhd_cfg_fs], entered at index [i >= 1] with the
    entries before [i] passed: on an ascending table it returns the last
    index whose threshold is below [msps]. *)
Lemma fs_loop_spec (msps : spec_float) (lut : list Z) (i i_lut : Z) :
  is_nan msps = false ->
  Forall (fun t => is_nan (f32_of_Z t) = false) lut ->
  StronglySorted fle lut ->
  i_lut = i - 1 ->
  let r := fs_loop msps lut i i_lut in
  i - 1 <= r <= i - 1 + Z.of_nat (length lut) /\
  forall (j : nat) (t : Z), lut !! j = Some t ->
    (SFltb (f32_of_Z t) msps = true <-> i + Z.of_nat j <= r).
Proof.
  intros Hnan. revert i i_lut.
  induction lut as [|t rest IH]; intros i i_lut Hfin Hasc ->.
  - cbn [fs_loop length]. split; [lia|]. intros j u Hj. discriminate.
  - cbn [fs_loop]. apply Forall_cons in Hfin as [Ht Hfin].
    apply StronglySorted_inv in Hasc as [Hasc Habove].
    destruct (SFleb msps (f32_of_Z t)) eqn:Hle.
    + cbn [length]. split; [clear; lia|]. intros j u Hj.
      assert (Hu : SFleb msps (f32_of_Z u) = true).
      { destruct j as [|j]; [injection Hj as <-; exact Hle|].
        apply (SFleb_trans _ (f32_of_Z t)); [exact Hle|].
        rewrite List.Forall_forall in Habove. apply Habove.
        apply list_elem_of_In, list_elem_of_lookup. eauto. }
      rewrite (SFleb_true_ltb _ _ Hu).
      split; [discriminate | intros Hc; exfalso; clear - Hc; lia].
    + destruct (IH (i + 1) i Hfin Hasc ltac:(lia)) as [Hr Hspec].
      cbn [length]. split; [clear - Hr; lia|]. intros j u Hj. destruct j as [|j].
      * injection Hj as <-. rewrite (SFleb_false_ltb _ _ Hnan Ht Hle).
        split; [intros _; clear - Hr; lia | reflexivity].
      * rewrite (Hspec j u Hj). clear; lia.
Qed.

(** ** ConfigurationEngine: the sample-rate bias *)

Lemma msps_lut_finite : Forall (fun t => is_nan (f32_of_Z t) = false) msps_lut.
Proof. repeat constructor. Qed.

Lemma msps_lut_ascending : StronglySorted fle msps_lut.
Proof. repeat constructor. Qed.

Section ConfigFacts.

Context {St : Type}.
Implicit Types (dev : rhd_device_t St) (w : world St).

Lemma rhd_w_exchange dev reg val w :
  rhd_w dev reg val w =
  Some (exchange dev (frame (double_bits dev) (write_addr reg) (u8 val)) w).
Proof.
  rewrite rhd_w_spec. unfold exchange. cbv zeta.
  destruct (rw dev _ _ _) as [c got]. reflexivity.
Qed.

(** A table read inside its bounds is defined. *)
Lemma lut_at_total (lut : list Z) (i : Z) w :
  0 <= i < Z.of_nat (length lut) ->
  exists v, lut !! Z.to_nat i = Some v /\ lut_at lut i w = Some (v, w).
Proof.
  intros Hi. assert (Hn : (Z.to_nat i < length lut)%nat) by lia.
  destruct (lookup_lt_is_Some_2 lut (Z.to_nat i) Hn) as [v Hv].
  exists v. split; [exact Hv|]. unfold lut_at, load.
  replace (i <? 0) with false by (symmetry; apply Z.ltb_ge; lia).
  rewrite Hv. reflexivity.
Qed.

(** A table read outside its bounds is undefined. *)
Lemma lut_at_outside (lut : list Z) (i : Z) w :
  Z.of_nat (length lut) <= i -> lut_at (St := St) lut i w = None.
Proof.
  intros Hi. unfold lut_at, load.
  replace (i <? 0) with false by (symmetry; apply Z.ltb_ge; lia).
  assert (Hn : (length lut <= Z.to_nat i)%nat) by lia.
  rewrite (lookup_ge_None_2 lut (Z.to_nat i) Hn). reflexivity.
Qed.

(** The index chosen by [rhd_cfg_fs] for a target that is not a NaN. *)
Lemma fs_select_spec (msps : spec_float) :
  is_nan msps = false ->
  let idx := fs_loop msps msps_lut 0 0 in
  0 <= idx <= 8 /\
  (SFleb msps (f32_of_Z 120000) = true -> idx = 0) /\
  (SFleb msps (f32_of_Z 120000) = false ->
   forall (j : nat) (t : Z), msps_lut !! j = Some t ->
     (SFltb (f32_of_Z t) msps = true <-> Z.of_nat j <= idx)).
Proof.
  intros Hnan. cbv zeta.
  pose proof msps_lut_finite as Hfin. pose proof msps_lut_ascending as Hasc.
  unfold msps_lut in *.
  apply Forall_cons in Hfin as [Ht Hfin].
  apply StronglySorted_inv in Hasc as [Hasc _].
  destruct (fs_loop_spec msps _ (0 + 1) 0 Hnan Hfin Hasc ltac:(lia)) as [Hr Hspec].
  cbn [length] in Hr.
  match goal with
  | |- context [fs_loop msps (?t :: ?rest) 0 0] =>
      change (fs_loop msps (t :: rest) 0 0)
        with (if SFleb msps (f32_of_Z t) then 0 else fs_loop msps rest (0 + 1) 0)
  end.
  destruct (SFleb msps (f32_of_Z 120000)) eqn:Hle.
  - split; [lia|]. split; [reflexivity | discriminate].
  - split; [clear - Hr; lia|]. split; [discriminate|]. intros _ j t Hj.
    destruct j as [|j].
    + injection Hj as <-. rewrite (SFleb_false_ltb _ _ Hnan Ht Hle).
      split; [intros _; clear - Hr; lia | reflexivity].
    + rewrite (Hspec j t Hj). clear; lia.
Qed.

(** C6: [rhd_cfg_fs] takes the target [fs * n_ch]; when it is not a NaN the
    index selected is 0 if the target is at most 120000 and otherwise the
    largest index whose threshold is strictly below the target, so 8 when
    the target exceeds 700000; the targets 100000 and 120000 select 0 and
    800000 selects 8; the operation then writes the ADC-buffer-bias code and
    the mux-bias code found at that index, in two register writes, and
    returns the target converted to [int]. *)
Theorem cfg_fs_selection (SUPPLY_SENS_ADC_BUF_BIAS MUX_BIAS_CURR : Z)
    dev (fs : spec_float) (n_ch : Z) w :
  let msps := SFmul32 fs (f32_of_Z n_ch) in
  let idx := fs_loop msps msps_lut 0 0 in
  is_nan msps = false ->
  0 <= idx <= 8 /\
  (SFleb msps (f32_of_Z 120000) = true -> idx = 0) /\
  (SFleb msps (f32_of_Z 120000) = false ->
   forall (j : nat) (t : Z), msps_lut !! j = Some t ->
     (SFltb (f32_of_Z t) msps = true <-> Z.of_nat j <= idx)) /\
  (SFltb (f32_of_Z 700000) msps = true -> idx = 8) /\
  (fs_loop (f32_of_Z 100000) msps_lut 0 0 = 0 /\
   fs_loop (f32_of_Z 120000) msps_lut 0 0 = 0 /\
   fs_loop (f32_of_Z 800000) msps_lut 0 0 = 8) /\
  exists adc mux,
    adc_buf_bias_lut !! Z.to_nat idx = Some adc /\
    mux_bias_lut !! Z.to_nat idx = Some mux /\
    let x1 := frame (double_bits dev) (write_addr SUPPLY_SENS_ADC_BUF_BIAS) (u8 adc) in
    let x2 := frame (double_bits dev) (write_addr MUX_BIAS_CURR) (u8 mux) in
    let w2 := snd (exchange dev x2 (snd (exchange dev x1 w))) in
    wire w2 = wire w ++ [x1; x2] /\
    rhd_cfg_fs SUPPLY_SENS_ADC_BUF_BIAS MUX_BIAS_CURR dev fs n_ch w =
    match int_of_float msps with
    | Some r => Some (r, w2)
    | None => None
    end.
Proof.
  intros msps idx Hnan.
  destruct (fs_select_spec msps Hnan) as [Hidx [Hlow Hhigh]]. fold idx in Hidx, Hlow, Hhigh.
  split; [exact Hidx|]. split; [exact Hlow|]. split; [exact Hhigh|]. split; [|split].
  - intros Hgt. destruct (SFleb msps (f32_of_Z 120000)) eqn:Hle.
    + assert (Hle' : SFleb msps (f32_of_Z 700000) = true)
        by (apply (SFleb_trans _ _ _ Hle); reflexivity).
      apply SFleb_true_ltb in Hle'. congruence.
    + apply (Hhigh eq_refl 8%nat 700000 eq_refl) in Hgt. clear - Hgt Hidx. lia.
  - repeat split; reflexivity.
  - destruct (lut_at_total adc_buf_bias_lut idx w) as [adc [Hadc Radc]];
      [cbn [adc_buf_bias_lut length]; clear - Hidx; lia|].
    exists adc.
    set (x1 := frame (double_bits dev) (write_addr SUPPLY_SENS_ADC_BUF_BIAS) (u8 adc)).
    destruct (lut_at_total mux_bias_lut idx (snd (exchange dev x1 w)))
      as [mux [Hmux Rmux]]; [cbn [mux_bias_lut length]; clear - Hidx; lia|].
    exists mux. split; [exact Hadc|]. split; [exact Hmux|]. cbv zeta.
    split; [rewrite !exchange_wire, <- app_assoc; reflexivity|].
    unfold rhd_cfg_fs. fold msps. fold idx. unfold mbind, M_bind.
    rewrite Radc, rhd_w_exchange. fold x1.
    destruct (exchange dev x1 w) as [v1 w1]. cbn [snd] in *.
    rewrite Rmux, rhd_w_exchange.
    destruct (exchange dev _ w1) as [v2 w2]. cbn [snd].
    destruct (int_of_float msps); reflexivity.
Qed.

End ConfigFacts.

Lemma cfg_fs_selection_witness :
  let msps := SFmul32 (f32_of_Z 25000) (f32_of_Z 32) in
  let idx := fs_loop msps msps_lut 0 0 in
  is_nan msps = false /\
  0 <= idx <= 8 /\
  (SFleb msps (f32_of_Z 120000) = true -> idx = 0) /\
  (SFleb msps (f32_of_Z 120000) = false ->
   forall (j : nat) (t : Z), msps_lut !! j = Some t ->
     (SFltb (f32_of_Z t) msps = true <-> Z.of_nat j <= idx)) /\
  (SFltb (f32_of_Z 700000) msps = true -> idx = 8) /\
  (fs_loop (f32_of_Z 100000) msps_lut 0 0 = 0 /\
   fs_loop (f32_of_Z 120000) msps_lut 0 0 = 0 /\
   fs_loop (f32_of_Z 800000) msps_lut 0 0 = 8) /\
  exists adc mux,
    adc_buf_bias_lut !! Z.to_nat idx = Some adc /\
    mux_bias_lut !! Z.to_nat idx = Some mux /\
    let x1 := frame false (write_addr 1) (u8 adc) in
    let x2 := frame false (write_addr 2) (u8 mux) in
    let w2 := snd (exchange (fixed_dev false 0 0) x2
                     (snd (exchange (fixed_dev false 0 0) x1 idle))) in
    wire w2 = wire idle ++ [x1; x2] /\
    rhd_cfg_fs 1 2 (fixed_dev false 0 0) (f32_of_Z 25000) 32 idle =
    match int_of_float msps with
    | Some r => Some (r, w2)
    | None => None
    end.
Proof.
  split; [reflexivity|].
  apply (cfg_fs_selection 1 2 (fixed_dev false 0 0) (f32_of_Z 25000) 32 idle).
  reflexivity.
Defined.

(** The same call, evaluated: index 8, the codes 2 and 4 written to
    registers 1 and 2, and 800000 returned. *)
Example cfg_fs_800000 :
  rhd_cfg_fs 1 2 (fixed_dev false 0 0) (f32_of_Z 25000) 32 idle =
  Some (800000, {| chip := tt; wire := [Xfer [0x8102] 1; Xfer [0x8204] 1] |}).
Proof. reflexivity. Qed.

(** ** ConfigurationEngine: the counting loops *)

(** [count_until] stops at the first entry of which [stop] holds, and runs
    to the length of the table when there is none. *)
Lemma count_until_spec {A : Type} (stop : A -> bool) (lut : list A) (i : Z) :
  let r := count_until stop lut i in
  i <= r <= i + Z.of_nat (length lut) /\
  (forall (j : nat) (t : A),
     lut !! j = Some t -> i + Z.of_nat j < r -> stop t = false) /\
  (r < i + Z.of_nat (length lut) ->
   exists t, lut !! Z.to_nat (r - i) = Some t /\ stop t = true) /\
  (Forall (fun t => stop t = false) lut -> r = i + Z.of_nat (length lut)).
Proof.
  cbv zeta. revert i. induction lut as [|t rest IH]; intros i.
  - cbn [count_until length]. split; [lia|]. split; [|split].
    + intros j t Hj. discriminate.
    + intros Hlt. exfalso. clear - Hlt. lia.
    + intros _. lia.
  - cbn [count_until length]. destruct (stop t) eqn:Hstop.
    + split; [lia|]. split; [|split].
      * intros j u Hj Hlt. exfalso. clear - Hlt. lia.
      * intros _. exists t. rewrite Z.sub_diag. auto.
      * intros Hall. apply Forall_cons in Hall as [Ht _]. congruence.
    + destruct (IH (i + 1)) as [Hr [Hbefore [Hat Hnone]]].
      split; [clear - Hr; lia|]. split; [|split].
      * intros j u Hj Hlt. destruct j as [|j].
        -- injection Hj as <-. exact Hstop.
        -- apply (Hbefore j u Hj). clear - Hlt. lia.
      * intros Hlt. destruct Hat as [u [Hu Hsu]]; [clear - Hlt; lia|].
        exists u. split; [|exact Hsu].
        replace (Z.to_nat (count_until stop rest (i + 1) - i))
          with (S (Z.to_nat (count_until stop rest (i + 1) - (i + 1))))
          by (clear - Hr; lia).
        exact Hu.
      * intros Hall. apply Forall_cons in Hall as [_ Hall].
        rewrite (Hnone Hall). clear; lia.
Qed.

Lemma fh_loop_count (fh : spec_float) (lut : list Z) (i : Z) :
  fh_loop fh lut i = count_until (fun t => SFgeb fh (f32_of_Z t)) lut i.
Proof.
  revert i. induction lut as [|t rest IH]; intros i; cbn; [reflexivity|].
  rewrite IH. reflexivity.
Qed.

Lemma fl_loop_count (fl : spec_float) (lut : list spec_float) (i : Z) :
  fl_loop fl lut i = count_until (fun t => SFleb fl t) lut i.
Proof.
  revert i. induction lut as [|t rest IH]; intros i; cbn; [reflexivity|].
  rewrite IH. reflexivity.
Qed.

Lemma dsp_loop_count (k : spec_float) (lut : list spec_float) (i : Z) :
  dsp_loop k lut i = count_until (fun t => SFgtb (f64_of_f32 k) t) lut i.
Proof.
  revert i. induction lut as [|t rest IH]; intros i; cbn; [reflexivity|].
  rewrite IH. reflexivity.
Qed.

(** ** ConfigurationEngine: the bandwidth and DSP indices *)

Section BandwidthFacts.

Context {St : Type}.
Implicit Types (dev : rhd_device_t St) (w : world St).

Variables (AMP_BW_SEL_0 AMP_BW_SEL_1 AMP_BW_SEL_2 : Z).
Variables (AMP_BW_SEL_3 AMP_BW_SEL_4 AMP_BW_SEL_5 : Z).

Let cfg_amp_bw :=
  rhd_cfg_amp_bw (St := St) AMP_BW_SEL_0 AMP_BW_SEL_1 AMP_BW_SEL_2
    AMP_BW_SEL_3 AMP_BW_SEL_4 AMP_BW_SEL_5.

(** When the high-cutoff count runs past the table, the first DAC lookup
    reads outside its array. *)
Lemma amp_bw_high_past_table dev (fl fh : spec_float) w :
  17 <= fh_loop fh fh_lut 0 -> cfg_amp_bw dev fl fh w = None.
Proof.
  intros Hi. unfold cfg_amp_bw, rhd_cfg_amp_bw, mbind, M_bind.
  rewrite lut_at_outside by exact Hi. reflexivity.
Qed.

(** When only the low-cutoff count runs past the table, the four high-side
    writes go out and the next lookup reads outside its array. *)
Lemma amp_bw_low_past_table dev (fl fh : spec_float) w :
  0 <= fh_loop fh fh_lut 0 < 17 -> 25 <= fl_loop fl fl_lut 0 ->
  cfg_amp_bw dev fl fh w = None.
Proof.
  intros Hh Hl. unfold cfg_amp_bw, rhd_cfg_amp_bw, mbind, M_bind.
  destruct (lut_at_total rh1_dac1_lut (fh_loop fh fh_lut 0) w) as [v1 [_ ->]];
    [exact Hh|].
  rewrite rhd_w_exchange. destruct (exchange dev _ w) as [r1 w1].
  destruct (lut_at_total rh1_dac2_lut (fh_loop fh fh_lut 0) w1) as [v2 [_ ->]];
    [exact Hh|].
  rewrite rhd_w_exchange. destruct (exchange dev _ w1) as [r2 w2].
  destruct (lut_at_total rh2_dac1_lut (fh_loop fh fh_lut 0) w2) as [v3 [_ ->]];
    [exact Hh|].
  rewrite rhd_w_exchange. destruct (exchange dev _ w2) as [r3 w3].
  destruct (lut_at_total rh2_dac2_lut (fh_loop fh fh_lut 0) w3) as [v4 [_ ->]];
    [exact Hh|].
  rewrite rhd_w_exchange. destruct (exchange dev _ w3) as [r4 w4].
  rewrite lut_at_outside by exact Hl. reflexivity.
Qed.

(** The high-cutoff count is the first index whose threshold is at most
    [fh]; with no such threshold it is 17, one past the last index, and the
    operation is undefined. *)
Lemma amp_bw_high_index dev (fl fh : spec_float) w :
  let i_fh := fh_loop fh fh_lut 0 in
  0 <= i_fh <= 17 /\
  (forall (j : nat) (t : Z),
     fh_lut !! j = Some t -> Z.of_nat j < i_fh -> SFgeb fh (f32_of_Z t) = false) /\
  (i_fh < 17 ->
   exists t, fh_lut !! Z.to_nat i_fh = Some t /\ SFgeb fh (f32_of_Z t) = true) /\
  (Forall (fun t => SFgeb fh (f32_of_Z t) = false) fh_lut ->
   i_fh = 17 /\ cfg_amp_bw dev fl fh w = None).
Proof.
  cbv zeta. rewrite fh_loop_count.
  destruct (count_until_spec (fun t => SFgeb fh (f32_of_Z t)) fh_lut 0)
    as [Hr [Hbefore [Hat Hnone]]].
  change (Z.of_nat (length fh_lut)) with 17 in *. rewrite !Z.add_0_l in *.
  split; [exact Hr|]. split; [|split].
  - intros j t Hj Hlt. apply (Hbefore j t Hj). rewrite Z.add_0_l. exact Hlt.
  - intros Hlt. destruct (Hat Hlt) as [t Ht]. rewrite Z.sub_0_r in Ht. eauto.
  - intros Hall. split; [exact (Hnone Hall)|].
    apply amp_bw_high_past_table. rewrite fh_loop_count, (Hnone Hall). reflexivity.
Qed.

(** The same for the low-cutoff count and the thresholds at least [fl]. *)
Lemma amp_bw_low_index (fl : spec_float) :
  let i_fl := fl_loop fl fl_lut 0 in
  0 <= i_fl <= 25 /\
  (forall (j : nat) (t : spec_float),
     fl_lut !! j = Some t -> Z.of_nat j < i_fl -> SFleb fl t = false) /\
  (i_fl < 25 -> exists t, fl_lut !! Z.to_nat i_fl = Some t /\ SFleb fl t = true) /\
  (Forall (fun t => SFleb fl t = false) fl_lut -> i_fl = 25).
Proof.
  cbv zeta. rewrite fl_loop_count.
  destruct (count_until_spec (fun t => SFleb fl t) fl_lut 0)
    as [Hr [Hbefore [Hat Hnone]]].
  change (Z.of_nat (length fl_lut)) with 25 in *. rewrite !Z.add_0_l in *.
  split; [exact Hr|]. split; [|split].
  - intros j t Hj Hlt. apply (Hbefore j t Hj). rewrite Z.add_0_l. exact Hlt.
  - intros Hlt. destruct (Hat Hlt) as [t Ht]. rewrite Z.sub_0_r in Ht. eauto.
  - exact Hnone.
Qed.

(** C2 at its failing inputs: for [fh = 90], below every high threshold, the
    count is 17 and not the last index 16, and for [fl = 600], above every
    low threshold, it is 25 and not 24; the DAC tables have 17 and 25
    entries, so the lookups are outside them and the operation is
    undefined. *)
Theorem amp_bw_index_past_table dev w :
  fh_loop (f32_of_Z 90) fh_lut 0 = 17 /\
  length fh_lut = 17%nat /\ rh1_dac1_lut !! 17%nat = None /\
  fl_loop (f32_of_Z 600) fl_lut 0 = 25 /\
  length fl_lut = 25%nat /\ rl_dac1_lut !! 25%nat = None /\
  fh_loop (f32_of_Z 20000) fh_lut 0 = 0 /\
  fl_loop (dec32 1 1) fl_lut 0 = 0 /\
  cfg_amp_bw dev (dec32 1 1) (f32_of_Z 90) w = None /\
  cfg_amp_bw dev (f32_of_Z 600) (f32_of_Z 20000) w = None.
Proof.
  assert (Hfh : fh_loop (f32_of_Z 90) fh_lut 0 = 17) by (vm_compute; reflexivity).
  assert (Hfl : fl_loop (f32_of_Z 600) fl_lut 0 = 25) by (vm_compute; reflexivity).
  assert (Hfh0 : fh_loop (f32_of_Z 20000) fh_lut 0 = 0) by (vm_compute; reflexivity).
  assert (Hfl0 : fl_loop (dec32 1 1) fl_lut 0 = 0) by (vm_compute; reflexivity).
  do 8 (split; [first [assumption | reflexivity]|]). split.
  - apply amp_bw_high_past_table. rewrite Hfh. lia.
  - apply amp_bw_low_past_table; [rewrite Hfh0; lia | rewrite Hfl; lia].
Qed.

End BandwidthFacts.

Section DspFacts.

Context {St : Type}.
Implicit Types (dev : rhd_device_t St) (w : world St).

Variable ADC_OUT_FMT_DPS_OFF_RMVL : Z.

Let cfg_dsp := rhd_cfg_dsp (St := St) ADC_OUT_FMT_DPS_OFF_RMVL.

(** The count of [rhd_cfg_dsp] lies in 0..16 and is 16, one more than the
    four-bit field holds, when [k] exceeds no entry of the table. *)
Lemma dsp_count_range (k : spec_float) :
  0 <= dsp_loop k k_lut 0 <= 16 /\
  (Forall (fun t => SFgtb (f64_of_f32 k) t = false) k_lut ->
   dsp_loop k k_lut 0 = 16).
Proof.
  rewrite dsp_loop_count.
  destruct (count_until_spec (fun t => SFgtb (f64_of_f32 k) t) k_lut 0)
    as [Hr [_ [_ Hnone]]].
  change (Z.of_nat (length k_lut)) with 16 in *. rewrite !Z.add_0_l in *.
  split; [exact Hr | exact Hnone].
Qed.

(** C3 at its failing input: with the DSP enabled, [fdsp = 0.125] and
    [fs = 30000], the ratio [k] is below every entry of the table and the
    count reaches 16; no error is reported: the count is or-ed into the
    register value, where it falls on the DSP-enable bit and leaves the
    cutoff-select field 0, so the call is the very call made for a ratio
    above 0.99 (here [fdsp = fs]), whose count is 0. *)
Theorem dsp_cutoff_count_overflows dev (twos_comp abs_mode : bool) w :
  let fdsp := dec32 125 3 in
  let fs := f32_of_Z 30000 in
  let k := SFdiv32 fdsp fs in
  Forall (fun t => SFltb (f64_of_f32 k) t = true) k_lut /\
  dsp_loop k k_lut 0 = 16 /\
  dsp_loop (SFdiv32 fs fs) k_lut 0 = 0 /\
  cfg_dsp dev twos_comp abs_mode true fdsp fs w =
  rhd_w dev ADC_OUT_FMT_DPS_OFF_RMVL
    (0x90 + 0x40 * Z.b2z twos_comp + 0x20 * Z.b2z abs_mode) w /\
  cfg_dsp dev twos_comp abs_mode true fdsp fs w =
  cfg_dsp dev twos_comp abs_mode true fs fs w /\
  Z.land (0x90 + 0x40 * Z.b2z twos_comp + 0x20 * Z.b2z abs_mode) 0xF = 0.
Proof.
  cbv zeta.
  assert (Hover : dsp_loop (SFdiv32 (dec32 125 3) (f32_of_Z 30000)) k_lut 0 = 16)
    by (vm_compute; reflexivity).
  assert (Hzero : dsp_loop (SFdiv32 (f32_of_Z 30000) (f32_of_Z 30000)) k_lut 0 = 0)
    by (vm_compute; reflexivity).
  split; [repeat constructor|]. split; [exact Hover|]. split; [exact Hzero|].
  unfold cfg_dsp, rhd_cfg_dsp. rewrite Hover, Hzero.
  destruct twos_comp, abs_mode; repeat split; reflexivity.
Qed.

End DspFacts.

(** ** ChannelAcquisitionSequencer: one sample *)

Lemma dup_of_u16 (z : Z) : u16 (rhd_duplicate_bits (u16 z)) = rhd_duplicate_bits z.
Proof.
  rewrite u16_small by apply dup_range. unfold rhd_duplicate_bits.
  rewrite u8_u16. reflexivity.
Qed.

Lemma die_word_range (hi lo : Z) :
  0 <= hi < 256 -> 0 <= lo < 256 -> 0 <= die_word hi lo < 65536.
Proof.
  intros Hhi Hlo. change 65536 with (2 ^ 16). apply low_bits_range; [lia|].
  intros k Hk. unfold die_word. rewrite !Z.lor_spec, Z.shiftl_spec by lia.
  rewrite (testbit_above 8 hi), (testbit_above 8 lo), (testbit_above 8 1) by lia.
  reflexivity.
Qed.

Lemma die_word_bytes (hi lo : Z) :
  0 <= hi < 256 -> 0 <= lo < 256 ->
  Z.shiftr (die_word hi lo) 8 = hi /\
  Z.land (die_word hi lo) 0xFF = Z.lor lo 1 /\
  Z.testbit (die_word hi lo) 0 = true.
Proof.
  intros Hhi Hlo. unfold die_word. split; [|split].
  - rewrite !Z.shiftr_lor, Z.shiftr_shiftl_l, Z.sub_diag, Z.shiftl_0_r by lia.
    rewrite (Z.shiftr_div_pow2 lo), (Z.div_small lo) by lia.
    rewrite Z.lor_0_r. apply Z.lor_0_r.
  - apply Z.bits_inj'. intros k Hk.
    change 0xFF with (Z.ones 8). rewrite Z.land_spec, !Z.lor_spec.
    destruct (Z.lt_ge_cases k 8) as [Hlt|Hge].
    + rewrite Z.ones_spec_low, Z.shiftl_spec_low by lia.
      rewrite andb_true_r. reflexivity.
    + rewrite Z.ones_spec_high by lia.
      rewrite (testbit_above 8 lo), (testbit_above 8 1) by lia.
      rewrite andb_false_r. reflexivity.
  - rewrite !Z.lor_spec. change (Z.testbit 1 0) with true. apply orb_true_r.
Qed.

Section SampleFacts.

Context {St : Type}.
Implicit Types (dev : rhd_device_t St) (w : world St).

Lemma load_head (v : Z) (l : list Z) w : load (v :: l) 0 w = Some (v, w).
Proof. reflexivity. Qed.

Lemma load_second (v v' : Z) (l : list Z) w :
  load (v :: v' :: l) 1 w = Some (v', w).
Proof. reflexivity. Qed.

Lemma store_inside (buf : list Z) (i v : Z) w :
  0 <= i < Z.of_nat (length buf) ->
  store buf i v w = Some (<[Z.to_nat i := v]> buf, w).
Proof.
  intros Hi. unfold store.
  replace (0 <=? i) with true by (symmetry; apply Z.leb_le; lia).
  replace (i <? Z.of_nat (length buf)) with true by (symmetry; apply Z.ltb_lt; lia).
  reflexivity.
Qed.

Lemma store_head (v x : Z) (l : list Z) w :
  store (v :: l) 0 x w = Some (x :: l, w).
Proof. rewrite store_inside by (cbn [length]; lia). reflexivity. Qed.

Lemma store_second (v v' x : Z) (l : list Z) w :
  store (v :: v' :: l) 1 x w = Some (v :: x :: l, w).
Proof. rewrite store_inside by (cbn [length]; lia). reflexivity. Qed.

(** One sample in double mode, on a receive buffer of at least two words. *)
Lemma sample_double_spec dev (ch x0 x1 : Z) (rest : list Z) w :
  double_bits dev = true ->
  let tx := [rhd_duplicate_bits ch; 0] in
  let first := u16 (snd (rw dev (chip w) tx 2) 0%nat) in
  let second := u16 (snd (rw dev (chip w) tx 2) 1%nat) in
  rhd2164_sample dev ch (x0 :: x1 :: rest) w =
  Some (die_word (fst (rhd_unsplit_u16 first)) (fst (rhd_unsplit_u16 second))
          :: die_word (snd (rhd_unsplit_u16 first)) (snd (rhd_unsplit_u16 second))
          :: rest,
        {| chip := fst (rw dev (chip w) tx 2); wire := wire w ++ [Xfer tx 2] |}).
Proof.
  intros Hd. cbv zeta. unfold rhd2164_sample. rewrite Hd, dup_of_u16.
  unfold mbind, M_bind, transfer. cbn [length Nat.leb andb].
  destruct (rw dev (chip w) _ 2) as [c got]. cbn [fst snd].
  cbn [store_words seq fold_left].
  change (<[1%nat:=u16 (got 1%nat)]> (<[0%nat:=u16 (got 0%nat)]> (x0 :: x1 :: rest)))
    with (u16 (got 0%nat) :: u16 (got 1%nat) :: rest).
  rewrite load_head.
  pose proof (unsplit_range (u16 (got 0%nat))) as [Ha1 Hb1].
  pose proof (unsplit_range (u16 (got 1%nat))) as [Ha0 Hb0].
  destruct (rhd_unsplit_u16 (u16 (got 0%nat))) as [a1 b1].
  rewrite load_second.
  destruct (rhd_unsplit_u16 (u16 (got 1%nat))) as [a0 b0].
  cbn [fst snd] in *.
  rewrite (u16_small a1), (u16_small b1) by lia. fold (die_word a1 a0).
  fold (die_word b1 b0).
  rewrite (u16_small (die_word a1 a0)), (u16_small (die_word b1 b0))
    by (apply die_word_range; lia).
  rewrite store_head, store_second. reflexivity.
Qed.

(** One sample in single mode. *)
Lemma sample_single_spec dev (ch x0 : Z) (rest : list Z) w :
  double_bits dev = false ->
  let tx := [u16 (Z.shiftl (u16 ch) 8)] in
  rhd2164_sample dev ch (x0 :: rest) w =
  Some (u16 (snd (rw dev (chip w) tx 1) 0%nat) :: rest,
        {| chip := fst (rw dev (chip w) tx 1); wire := wire w ++ [Xfer tx 1] |}).
Proof.
  intros Hd. cbv zeta. unfold rhd2164_sample. rewrite Hd.
  unfold mbind, M_bind, transfer. cbn [length Nat.leb andb].
  destruct (rw dev (chip w) _ 1) as [c got]. reflexivity.
Qed.

(** On a two-word buffer a sample always completes and leaves a two-word
    buffer. *)
Lemma sample_pair dev (ch x0 x1 : Z) w :
  exists r0 r1 w', rhd2164_sample dev ch [x0; x1] w = Some ([r0; r1], w').
Proof.
  destruct (double_bits dev) eqn:Hd.
  - rewrite sample_double_spec by exact Hd. eauto.
  - rewrite sample_single_spec by exact Hd. eauto.
Qed.

End SampleFacts.

(** C5, as the specification words it (low byte from the first received
    word, high byte from the second), fails on a double-mode transport that
    answers [0xFFFF] then [0x0000]: the code returns [0xFF01] for both dies,
    where that reading gives [0x00FF]. *)
Lemma sample_low_byte_first_fails :
  ~ (forall (dev : rhd_device_t unit) (ch : Z) (w : world unit),
       double_bits dev = true ->
       let tx := [rhd_duplicate_bits ch; 0] in
       let first := u16 (snd (rw dev (chip w) tx 2) 0%nat) in
       let second := u16 (snd (rw dev (chip w) tx 2) 1%nat) in
       exists w',
         rhd2164_sample dev ch [0; 0] w =
         Some ([die_word (fst (rhd_unsplit_u16 second)) (fst (rhd_unsplit_u16 first));
                die_word (snd (rhd_unsplit_u16 second)) (snd (rhd_unsplit_u16 first))],
               w')).
Proof.
  intros H. destruct (H (fixed_dev true 0xFFFF 0) 0 idle eq_refl) as [w' Hw'].
  vm_compute in Hw'. discriminate.
Qed.

Section SampleClaims.

Context {St : Type}.
Implicit Types (dev : rhd_device_t St) (w : world St).

(** C5 (amended): in double mode [rhd2164_sample] makes one transfer of two
    words, the duplicated channel byte then zero, de-interleaves both
    received words, and returns for each die the 16-bit value whose high
    byte comes from the first received word and whose low byte comes from
    the second, with bit 0 set. *)
Theorem sample_double_reassembly dev (ch x0 x1 : Z) (rest : list Z) w :
  double_bits dev = true ->
  let tx := [rhd_duplicate_bits ch; 0] in
  let first := u16 (snd (rw dev (chip w) tx 2) 0%nat) in
  let second := u16 (snd (rw dev (chip w) tx 2) 1%nat) in
  let '(a1, b1) := rhd_unsplit_u16 first in
  let '(a0, b0) := rhd_unsplit_u16 second in
  rhd2164_sample dev ch (x0 :: x1 :: rest) w =
  Some (die_word a1 a0 :: die_word b1 b0 :: rest,
        {| chip := fst (rw dev (chip w) tx 2); wire := wire w ++ [Xfer tx 2] |}) /\
  (0 <= die_word a1 a0 < 65536 /\ Z.shiftr (die_word a1 a0) 8 = a1 /\
   Z.land (die_word a1 a0) 0xFF = Z.lor a0 1 /\
   Z.testbit (die_word a1 a0) 0 = true) /\
  (0 <= die_word b1 b0 < 65536 /\ Z.shiftr (die_word b1 b0) 8 = b1 /\
   Z.land (die_word b1 b0) 0xFF = Z.lor b0 1 /\
   Z.testbit (die_word b1 b0) 0 = true).
Proof.
  intros Hd. cbv zeta.
  pose proof (sample_double_spec dev ch x0 x1 rest w Hd) as Hrun. cbv zeta in Hrun.
  pose proof (unsplit_range (u16 (snd (rw dev (chip w) [rhd_duplicate_bits ch; 0] 2) 0%nat)))
    as [Ha1 Hb1].
  pose proof (unsplit_range (u16 (snd (rw dev (chip w) [rhd_duplicate_bits ch; 0] 2) 1%nat)))
    as [Ha0 Hb0].
  destruct (rhd_unsplit_u16 (u16 (snd (rw dev (chip w) _ 2) 0%nat))) as [a1 b1].
  destruct (rhd_unsplit_u16 (u16 (snd (rw dev (chip w) _ 2) 1%nat))) as [a0 b0].
  cbn [fst snd] in *. split; [exact Hrun|].
  split; (split; [apply die_word_range; lia | apply die_word_bytes; lia]).
Qed.

End SampleClaims.

Lemma sample_double_reassembly_witness :
  double_bits (fixed_dev true 0xFFFF 0x0003) = true /\
  rhd2164_sample (fixed_dev true 0xFFFF 0x0003) 5 [0; 0] idle =
  Some ([0xFF01; 0xFF01], {| chip := tt; wire := [Xfer [0x33; 0] 2] |}).
Proof.
  split; [reflexivity|].
  exact (proj1 (sample_double_reassembly (fixed_dev true 0xFFFF 0x0003) 5 0 0 []
                  idle eq_refl)).
Defined.

(** ** ChannelAcquisitionSequencer: the sweep *)

Lemma slot_of_range (ch : nat) :
  (ch < 32)%nat -> 0 <= slot_of (Z.of_nat ch) < 32.
Proof.
  intros Hch. unfold slot_of. destruct (Z.ltb_spec (Z.of_nat ch) 2); lia.
Qed.

(** The remap is one-to-one on the 32 request indices, so no request
    overwrites the slot of another, nor its upper half. *)
Lemma slot_of_apart (ch ch' : nat) :
  (ch < 32)%nat -> (ch' < 32)%nat -> ch <> ch' ->
  Z.to_nat (slot_of (Z.of_nat ch)) <> Z.to_nat (slot_of (Z.of_nat ch')) /\
  Z.to_nat (slot_of (Z.of_nat ch)) <> Z.to_nat (slot_of (Z.of_nat ch') + 32) /\
  Z.to_nat (slot_of (Z.of_nat ch) + 32) <> Z.to_nat (slot_of (Z.of_nat ch')) /\
  Z.to_nat (slot_of (Z.of_nat ch) + 32) <> Z.to_nat (slot_of (Z.of_nat ch') + 32).
Proof.
  intros Hch Hch' Hne. unfold slot_of.
  destruct (Z.ltb_spec (Z.of_nat ch) 2), (Z.ltb_spec (Z.of_nat ch') 2); lia.
Qed.

Section SweepFacts.

Context {St : Type}.
Implicit Types (dev : rhd_device_t St) (w : world St).

(** The loop of [rhd2164_sample_all] over any list of distinct request
    indices: it completes, each request's two results sit at its slot and
    32 above it, and no other slot of the frame changes. *)
Lemma sample_sweep_spec dev (chs : list nat) (x0 x1 : Z) (buf : list Z) w :
  NoDup chs -> Forall (fun ch => (ch < 32)%nat) chs -> length buf = 64%nat ->
  exists y0 y1 buf' w',
    forM chs (sample_all_body dev) ([x0; x1], buf) w = Some (([y0; y1], buf'), w') /\
    length buf' = 64%nat /\
    length (sweep_results dev chs [x0; x1] w) = length chs /\
    (forall (p ch : nat) (r0 r1 : Z),
       chs !! p = Some ch ->
       sweep_results dev chs [x0; x1] w !! p = Some (r0, r1) ->
       buf' !! Z.to_nat (slot_of (Z.of_nat ch)) = Some r0 /\
       buf' !! Z.to_nat (slot_of (Z.of_nat ch) + 32) = Some r1) /\
    (forall s : nat,
       (forall ch, In ch chs ->
          s <> Z.to_nat (slot_of (Z.of_nat ch)) /\
          s <> Z.to_nat (slot_of (Z.of_nat ch) + 32)) ->
       buf' !! s = buf !! s).
Proof.
  revert x0 x1 buf w.
  induction chs as [|ch chs IH]; intros x0 x1 buf w Hnd Hlt Hlen.
  - exists x0, x1, buf, w. cbn [forM sweep_results length].
    split; [reflexivity|]. split; [exact Hlen|]. split; [reflexivity|]. split.
    + intros p ch r0 r1 Hp. discriminate.
    + intros s _. reflexivity.
  - apply NoDup_cons in Hnd as [Hfresh Hnd].
    apply Forall_cons in Hlt as [Hch Hlt].
    destruct (sample_pair dev (Z.of_nat ch) x0 x1 w) as [r0 [r1 [w1 Hrun]]].
    pose proof (slot_of_range ch Hch) as Hslot.
    set (slot := slot_of (Z.of_nat ch)) in *.
    set (buf1 := <[Z.to_nat (slot + 32) := r1]> (<[Z.to_nat slot := r0]> buf)).
    assert (Hlen1 : length buf1 = 64%nat)
      by (unfold buf1; rewrite !length_insert; exact Hlen).
    destruct (IH r0 r1 buf1 w1 Hnd Hlt Hlen1)
      as [y0 [y1 [buf' [w' [Hloop [Hlen' [Hres [Hslots Hframe]]]]]]]].
    exists y0, y1, buf', w'.
    assert (Hkeep : forall s : nat,
              s = Z.to_nat slot \/ s = Z.to_nat (slot + 32) -> buf' !! s = buf1 !! s).
    { intros s Hs. apply Hframe. intros ch' Hin.
      assert (Hch' : (ch' < 32)%nat)
        by (rewrite List.Forall_forall in Hlt; apply Hlt; exact Hin).
      assert (Hne : ch <> ch').
      { intros ->. apply Hfresh. apply list_elem_of_In. exact Hin. }
      pose proof (slot_of_apart ch ch' Hch Hch' Hne) as Hap. fold slot in Hap.
      destruct Hs as [-> | ->]; tauto. }
    split; [|split; [exact Hlen'|split; [|split]]].
    + cbn [forM]. unfold mbind, M_bind, sample_all_body at 1. unfold mbind, M_bind.
      rewrite Hrun, load_head.
      change (if Z.of_nat ch <? 2 then 31 - Z.of_nat ch else Z.of_nat ch - 2)
        with slot.
      rewrite store_inside by (rewrite Hlen; lia).
      rewrite load_second.
      rewrite store_inside by (rewrite length_insert, Hlen; lia).
      fold buf1. exact Hloop.
    + cbn [sweep_results length]. rewrite Hrun. cbn [length]. rewrite Hres. reflexivity.
    + intros p ch' q0 q1 Hp Hq. cbn [sweep_results] in Hq. rewrite Hrun in Hq.
      destruct p as [|p].
      * injection Hp as <-. injection Hq as <- <-. fold slot.
        rewrite !Hkeep by auto. unfold buf1. split.
        -- rewrite list_lookup_insert_ne by lia.
           apply list_lookup_insert_eq. rewrite Hlen. lia.
        -- apply list_lookup_insert_eq. rewrite length_insert, Hlen. lia.
      * exact (Hslots p ch' q0 q1 Hp Hq).
    + intros s Hs. rewrite Hframe.
      * destruct (Hs ch (or_introl eq_refl)) as [Hs1 Hs2]. fold slot in Hs1, Hs2.
        unfold buf1. rewrite !list_lookup_insert_ne by congruence. reflexivity.
      * intros ch' Hin. apply Hs. right. exact Hin.
Qed.

End SweepFacts.

Section SweepClaims.

Context {St : Type}.
Implicit Types (dev : rhd_device_t St) (w : world St).

Lemma load_inside (buf : list Z) (i : nat) (v : Z) w :
  buf !! i = Some v -> load buf (Z.of_nat i) w = Some (v, w).
Proof.
  intros Hv. unfold load.
  replace (Z.of_nat i <? 0) with false by (symmetry; apply Z.ltb_ge; lia).
  rewrite Nat2Z.id, Hv. reflexivity.
Qed.

(** C4: on a frame of 64 slots [rhd2164_sample_all] completes; it makes the
    requests 0..31 in order, and the two results of request [ch] (the
    receive buffer's words after it) end at slot [slot_of ch] and 32 above
    it, where [slot_of] sends 0 to 31, 1 to 30 and every [ch >= 2] to
    [ch - 2]; the one exception is slot 0, which holds request 2's first
    result with its bit 0 cleared, whatever the transport returned. *)
Theorem sample_all_remap dev (sample_buf : list Z) w :
  length sample_buf = 64%nat ->
  let res := sweep_results dev (seq 0 32) [0; 0] w in
  exists buf' w',
    rhd2164_sample_all dev sample_buf w = Some (buf', w') /\
    length buf' = 64%nat /\
    length res = 32%nat /\
    (forall (ch : nat) (r0 r1 : Z),
       res !! ch = Some (r0, r1) ->
       buf' !! Z.to_nat (slot_of (Z.of_nat ch)) =
         Some (if slot_of (Z.of_nat ch) =? 0 then u16 (Z.land r0 0xFFFE) else r0) /\
       buf' !! Z.to_nat (slot_of (Z.of_nat ch) + 32) = Some r1) /\
    (slot_of 0 = 31 /\ slot_of 1 = 30 /\ forall ch, 2 <= ch -> slot_of ch = ch - 2) /\
    exists s0, buf' !! 0%nat = Some s0 /\ Z.testbit s0 0 = false.
Proof.
  intros Hlen res.
  assert (Hnd : NoDup (seq 0 32)) by apply NoDup_seq.
  assert (Hlt : Forall (fun ch => (ch < 32)%nat) (seq 0 32)).
  { apply List.Forall_forall. intros ch Hin. apply in_seq in Hin. lia. }
  destruct (sample_sweep_spec dev (seq 0 32) 0 0 sample_buf w Hnd Hlt Hlen)
    as [y0 [y1 [buf1 [w1 [Hloop [Hlen1 [Hres [Hslots _]]]]]]]].
  fold res in Hres, Hslots. rewrite length_seq in Hres.
  destruct (lookup_lt_is_Some_2 buf1 0) as [s0 Hs0]; [rewrite Hlen1; lia|].
  set (s0' := u16 (Z.land s0 0xFFFE)).
  exists (<[0%nat := s0']> buf1), w1.
  split; [|split; [|split; [|split; [|split]]]].
  - unfold rhd2164_sample_all, for_rangeM, mbind, M_bind. rewrite Hloop.
    pose proof (load_inside buf1 0 s0 w1 Hs0) as Hload.
    change (Z.of_nat 0) with 0 in Hload. rewrite Hload.
    rewrite store_inside by (rewrite Hlen1; lia). reflexivity.
  - rewrite length_insert. exact Hlen1.
  - exact Hres.
  - intros ch r0 r1 Hch.
    assert (Hch32 : (ch < 32)%nat)
      by (rewrite <- Hres; apply (lookup_lt_Some _ _ _ Hch)).
    assert (Hseq : seq 0 32 !! ch = Some ch)
      by (rewrite lookup_seq_lt by exact Hch32; reflexivity).
    destruct (Hslots ch ch r0 r1 Hseq Hch) as [Hr0 Hr1].
    pose proof (slot_of_range ch Hch32) as Hslot.
    destruct (Z.eqb_spec (slot_of (Z.of_nat ch)) 0) as [Hz|Hnz].
    + rewrite Hz in *. change (Z.to_nat 0) with 0%nat in *. split.
      * rewrite list_lookup_insert_eq by (rewrite Hlen1; lia).
        unfold s0'. congruence.
      * rewrite list_lookup_insert_ne by discriminate. exact Hr1.
    + split.
      * rewrite list_lookup_insert_ne by lia. exact Hr0.
      * rewrite list_lookup_insert_ne by lia. exact Hr1.
  - split; [reflexivity|]. split; [reflexivity|]. intros ch Hch. unfold slot_of.
    destruct (Z.ltb_spec ch 2); [lia | reflexivity].
  - exists s0'. split.
    + apply list_lookup_insert_eq. rewrite Hlen1. lia.
    + unfold s0'. rewrite u16_testbit, Z.land_spec by lia.
      change (Z.testbit 0xFFFE 0) with false. apply andb_false_r.
Qed.

End SweepClaims.

Lemma sample_all_remap_witness :
  length (replicate 64 0) = 64%nat /\
  let dev := fixed_dev true 0xFFFF 0x0003 in
  let res := sweep_results dev (seq 0 32) [0; 0] idle in
  exists buf' w',
    rhd2164_sample_all dev (replicate 64 0) idle = Some (buf', w') /\
    length buf' = 64%nat /\
    length res = 32%nat /\
    (forall (ch : nat) (r0 r1 : Z),
       res !! ch = Some (r0, r1) ->
       buf' !! Z.to_nat (slot_of (Z.of_nat ch)) =
         Some (if slot_of (Z.of_nat ch) =? 0 then u16 (Z.land r0 0xFFFE) else r0) /\
       buf' !! Z.to_nat (slot_of (Z.of_nat ch) + 32) = Some r1) /\
    (slot_of 0 = 31 /\ slot_of 1 = 30 /\ forall ch, 2 <= ch -> slot_of ch = ch - 2) /\
    exists s0, buf' !! 0%nat = Some s0 /\ Z.testbit s0 0 = false.
Proof.
  split; [reflexivity|].
  apply (sample_all_remap (fixed_dev true 0xFFFF 0x0003) (replicate 64 0) idle).
  reflexivity.
Defined.

(** ** Runs on the simulated transports *)

(** A chip holding "INTAN" at registers 40..44 passes the identity check:
    fifteen reads go out and 0 comes back. *)
Example sanity_check_intan :
  exists w',
    rhd_sanity_check 40 true (signature_dev 40 [73; 78; 84; 65; 78]) idle =
    Some (0, w') /\ length (wire w') = 15%nat.
Proof. eexists. split; [cbv; reflexivity | reflexivity]. Qed.

(** A chip holding "XNTAN" fails it at the first register, after three
    reads. *)
Example sanity_check_xntan :
  rhd_sanity_check 40 true (signature_dev 40 [88; 78; 84; 65; 78]) idle =
  Some (40, {| chip := tt;
               wire := [Xfer [0xE800] 1; Xfer [0xE800] 1; Xfer [0xE800] 1] |}).
Proof. reflexivity. Qed.

(** A chip holding "INTAM" fails it at the fifth register. *)
Example sanity_check_intam :
  exists w',
    rhd_sanity_check 40 false (signature_dev 40 [73; 78; 84; 65; 77]) idle =
    Some (44, w').
Proof. eexists. cbv. reflexivity. Qed.

(** The frames of a read and of a write of register 4 in either mode. *)
Example read_frames :
  frame false (read_addr 4) 0 = Xfer [0xC400] 1 /\
  frame true (read_addr 4) 0 = Xfer [0xF030; 0x0000] 2 /\
  frame false (write_addr 4) 0xD0 = Xfer [0x84D0] 1 /\
  frame true (write_addr 4) 0xD0 = Xfer [0xC030; 0xF300] 2.
Proof. repeat split; reflexivity. Qed.

(** The high-cutoff request 20000 selects index 0, and the low-cutoff
    request 0.1 selects index 0. *)
Example cutoff_first_entries :
  fh_loop (f32_of_Z 20000) fh_lut 0 = 0 /\ fl_loop (dec32 1 1) fl_lut 0 = 0.
Proof. split; vm_compute; reflexivity. Qed.

(** The floating-point constants of the tables are the values a C compiler
    gives them: 0.1 as a [float] is [13421773 * 2^-27], 0.99 as a [double]
    is [8917127262193582 * 2^-53]. *)
Example decimal_constants :
  dec32 1 1 = S754_finite false 13421773 (-27) /\
  dec64 99 2 = S754_finite false 8917127262193582 (-53) /\
  f32_of_Z 120000 = S754_finite false 15360000 (-7).
Proof. repeat split; vm_compute; reflexivity. Qed.

(** A double-mode sweep over a chip that answers [0xFFFF] then [0x0003]:
    every slot holds [0xFF01] except slot 0, whose bit 0 is cleared. *)
Example sweep_frame :
  exists w',
    rhd2164_sample_all (fixed_dev true 0xFFFF 0x0003) (replicate 64 0) idle =
    Some (0xFF00 :: replicate 63 0xFF01, w').
Proof. eexists. cbv. reflexivity. Qed.

(** * Further properties of the driver *)

(** ** BitCodec: nothing is lost *)

(** De-interleaving a duplicated word gives the byte twice, whatever the
    argument's upper bits. *)
Lemma unsplit_of_dup (v : Z) :
  rhd_unsplit_u16 (rhd_duplicate_bits v) = (u8 v, u8 v).
Proof.
  pose proof (unsplit_range (rhd_duplicate_bits v)) as [Hra Hrb].
  pose proof (u8_range v) as Hv.
  rewrite (surjective_pairing (rhd_unsplit_u16 (rhd_duplicate_bits v))).
  f_equal; apply byte_eq_bits; try lia; intros j Hj.
  - rewrite unsplit_a_testbit by lia.
    destruct (dup_testbit_pair v j ltac:(lia)) as [_ Ho]. rewrite Ho.
    settle_cmp. reflexivity.
  - rewrite unsplit_b_testbit by lia.
    destruct (dup_testbit_pair v j ltac:(lia)) as [He _]. rewrite He.
    settle_cmp. reflexivity.
Qed.

(** [rhd_duplicate_bits] sees its argument through its low byte only and
    tells any two bytes apart. *)
Theorem duplicate_bits_injective (v v' : Z) :
  rhd_duplicate_bits v = rhd_duplicate_bits v' <-> u8 v = u8 v'.
Proof.
  split; intros H.
  - pose proof (unsplit_of_dup v) as Hv. pose proof (unsplit_of_dup v') as Hv'.
    rewrite H in Hv. congruence.
  - unfold rhd_duplicate_bits. rewrite H. reflexivity.
Qed.


(** Two 16-bit words with the same two streams are the same word: the
    streams [a] and [b] together keep every bit of the word. *)
Theorem unsplit_injective (w w' : Z) :
  0 <= w < 65536 -> 0 <= w' < 65536 ->
  rhd_unsplit_u16 w = rhd_unsplit_u16 w' -> w = w'.
Proof.
  intros Hw Hw' Heq. apply Z.bits_inj'. intros k Hk.
  destruct (Z.lt_ge_cases k 16) as [Hlt|Hge].
  - destruct (Z.even k) eqn:Hpar.
    + apply Z.even_spec in Hpar. destruct Hpar as [j ->].
      rewrite <- !unsplit_b_testbit by lia. rewrite Heq. reflexivity.
    + rewrite <- Z.negb_odd in Hpar. apply negb_false_iff, Z.odd_spec in Hpar.
      destruct Hpar as [j ->].
      rewrite <- !unsplit_a_testbit by lia. rewrite Heq. reflexivity.
  - rewrite (testbit_above 16 w k), (testbit_above 16 w' k) by lia. reflexivity.
Qed.

Lemma unsplit_injective_witness :
  (0 <= 0x1234 < 65536 /\ 0 <= 0x1234 < 65536 /\
   rhd_unsplit_u16 0x1234 = rhd_unsplit_u16 0x1234) /\ 0x1234 = 0x1234.
Proof.
  split; [repeat split; lia|].
  apply (unsplit_injective 0x1234 0x1234); [lia | lia | reflexivity].
Defined.

(** The precomputed channel words are the duplicated channel indices, and
    the plain ones are the indices 0..31. *)
Theorem channel_tables_agree :
  RHD_ADC_CH_CMD = map Z.of_nat (seq 0 32) /\
  RHD_ADC_CH_CMD_DOUBLE = map rhd_duplicate_bits RHD_ADC_CH_CMD /\
  forall ch : nat,
    RHD_ADC_CH_CMD_DOUBLE !! ch =
    (if (ch <? 32)%nat then Some (rhd_duplicate_bits (Z.of_nat ch)) else None).
Proof.
  split; [reflexivity|]. split; [reflexivity|]. intros ch.
  do 32 (destruct ch as [|ch]; [reflexivity|]). reflexivity.
Qed.

(** ** CommandCodec: what [rhd_send] sends and returns *)

Lemma u8_idem (z : Z) : u8 (u8 z) = u8 z.
Proof. apply u8_small, u8_range. Qed.


Section SendFacts.

Context {St : Type}.
Implicit Types (dev : rhd_device_t St) (w : world St).

Lemma rhd_send_exchange dev reg val w :
  rhd_send dev reg val w =
  Some (exchange dev (frame (double_bits dev) (u8 reg) (u8 val)) w).
Proof.
  rewrite rhd_send_spec. unfold exchange. cbv zeta.
  destruct (rw dev _ _ _) as [c got]. reflexivity.
Qed.

(** [rhd_send] always completes with one transfer and a byte for result,
    and only the low bytes of its two arguments matter: the upper byte of
    [reg] is shifted out of the word in single mode and cut by the
    conversion to [uint8_t] in double mode. *)
Theorem send_low_bytes dev (reg val : Z) w :
  (exists r w',
     rhd_send dev reg val w = Some (r, w') /\ 0 <= r < 256 /\
     wire w' = wire w ++ [frame (double_bits dev) (u8 reg) (u8 val)]) /\
  rhd_send dev reg val w = rhd_send dev (u8 reg) (u8 val) w /\
  rhd_send dev (reg + 256) (val + 256) w = rhd_send dev reg val w.
Proof.
  split; [|split].
  - rewrite rhd_send_exchange.
    pose proof (exchange_range dev (frame (double_bits dev) (u8 reg) (u8 val)) w) as Hr.
    pose proof (exchange_wire dev (frame (double_bits dev) (u8 reg) (u8 val)) w) as Hw.
    destruct (exchange dev _ w) as [r w']. cbn [fst snd] in *. eauto.
  - rewrite !rhd_send_exchange, !u8_idem. reflexivity.
  - rewrite !rhd_send_exchange. unfold u8.
    rewrite <- (Z.add_mod_idemp_r reg 256), <- (Z.add_mod_idemp_r val 256) by lia.
    change (256 mod 2 ^ 8) with 0. rewrite !Z.add_0_r. reflexivity.
Qed.

(** Over a transport that echoes what it is sent, a write returns its
    payload byte and a read returns 0, in single and in double mode: the
    reply decoding undoes the frame encoding. *)
Theorem send_loopback (double : bool) (reg val : Z) w :
  let dev := {| double_bits := double; rw := loopback |} in
  rhd_send dev reg val w =
    Some (u8 val, {| chip := chip w;
                     wire := wire w ++ [frame double (u8 reg) (u8 val)] |}) /\
  (exists w', rhd_w dev reg val w = Some (u8 val, w')) /\
  (exists w', rhd_r dev reg w = Some (0, w')).
Proof.
  cbv zeta.
  assert (Hsend : forall reg val,
            rhd_send {| double_bits := double; rw := loopback (St := St) |} reg val w =
            Some (u8 val, {| chip := chip w;
                             wire := wire w ++ [frame double (u8 reg) (u8 val)] |})).
  { intros r v. rewrite rhd_send_spec. cbn [double_bits rw]. unfold loopback.
    cbv zeta. destruct double; cbn [frame xfer_tx xfer_len reply nth].
    - rewrite u16_small by apply dup_range. rewrite unsplit_of_dup, u8_idem.
      reflexivity.
    - assert (Hlow : u8 (u16 (Z.lor (Z.shiftl (u8 r) 8) (u8 v))) = u8 v).
      { rewrite u8_u16. apply byte_eq_bits; try apply u8_range. intros j Hj.
        rewrite u8_testbit, Z.lor_spec, Z.shiftl_spec_low by lia. reflexivity. }
      rewrite Hlow. reflexivity. }
  split; [apply Hsend|]. split.
  - unfold rhd_w. rewrite Hsend, u8_u16. eauto.
  - unfold rhd_r. rewrite Hsend. eauto.
Qed.

End SendFacts.



(** ** Transfer logs of the register operations *)

Section LogFacts.

Context {St : Type}.
Implicit Types (dev : rhd_device_t St) (w : world St).

Lemma issues_send dev (reg val : Z) w :
  issues (rhd_send dev reg val) w [frame (double_bits dev) (u8 reg) (u8 val)].
Proof.
  unfold issues. rewrite rhd_send_exchange.
  pose proof (exchange_wire dev (frame (double_bits dev) (u8 reg) (u8 val)) w) as Hw.
  destruct (exchange dev _ w) as [r w']. eauto.
Qed.

Lemma issues_r dev (reg : Z) w :
  issues (rhd_r dev reg) w [rd (double_bits dev) reg].
Proof.
  unfold issues, rd. rewrite rhd_r_exchange.
  pose proof (exchange_wire dev (frame (double_bits dev) (read_addr reg) 0) w) as Hw.
  destruct (exchange dev _ w) as [r w']. eauto.
Qed.

Lemma issues_w dev (reg val : Z) w :
  issues (rhd_w dev reg val) w [wr (double_bits dev) reg val].
Proof.
  unfold issues, wr. rewrite rhd_w_exchange.
  pose proof (exchange_wire dev (frame (double_bits dev) (write_addr reg) (u8 val)) w)
    as Hw.
  destruct (exchange dev _ w) as [r w']. eauto.
Qed.

End LogFacts.

(** Run the operation at the head of the goal with its log lemma. *)
Ltac run_with lem :=
  let r := fresh "r" in
  let w1 := fresh "w" in
  let Hrun := fresh "Hrun" in
  let Hw := fresh "Hwire" in
  destruct lem as (r & w1 & Hrun & Hw); rewrite Hrun; clear Hrun; cbv beta iota.

Ltac run_access :=
  match goal with
  | |- context [rhd_r ?dev ?reg ?w] => run_with (issues_r dev reg w)
  | |- context [rhd_w ?dev ?reg ?v ?w] => run_with (issues_w dev reg v w)
  | |- context [rhd_send ?dev ?reg ?v ?w] => run_with (issues_send dev reg v w)
  end.

(** Put the wire equations of the steps together. *)
Ltac join_wire :=
  repeat match goal with
    | H : wire _ = _ |- _ => rewrite H; clear H
    end;
  rewrite <- ?app_assoc; reflexivity.

Lemma mask_bytes (x : Z) :
  0 <= x < 2 ^ 32 ->
  byte_of x 0 + 2 ^ 8 * byte_of x 1 + 2 ^ 16 * byte_of x 2 + 2 ^ 24 * byte_of x 3 = x.
Proof.
  intros Hx. unfold byte_of. rewrite !land_byte. unfold u8.
  rewrite !Z.shiftr_div_pow2 by lia.
  change (2 ^ (8 * 0)) with 1. change (2 ^ (8 * 1)) with 256.
  change (2 ^ (8 * 2)) with 65536. change (2 ^ (8 * 3)) with 16777216.
  change (2 ^ 8) with 256. change (2 ^ 16) with 65536.
  change (2 ^ 24) with 16777216. change (2 ^ 32) with 4294967296 in Hx.
  Z.div_mod_to_equations. lia.
Qed.

Section ChannelMaskFacts.

Context {St : Type}.
Implicit Types (dev : rhd_device_t St) (w : world St).

Variables (IND_AMP_PWR_0 IND_AMP_PWR_1 IND_AMP_PWR_2 IND_AMP_PWR_3 : Z).
Variables (IND_AMP_PWR_4 IND_AMP_PWR_5 IND_AMP_PWR_6 IND_AMP_PWR_7 : Z).

Let cfg_ch :=
  rhd_cfg_ch (St := St) IND_AMP_PWR_0 IND_AMP_PWR_1 IND_AMP_PWR_2 IND_AMP_PWR_3
    IND_AMP_PWR_4 IND_AMP_PWR_5 IND_AMP_PWR_6 IND_AMP_PWR_7.

Lemma cfg_ch_log dev (channels_l channels_h : Z) w :
  let d := double_bits dev in
  let l := u32 channels_l in
  let h := u32 channels_h in
  issues (cfg_ch dev channels_l channels_h) w
    [wr d IND_AMP_PWR_0 (byte_of l 0); wr d IND_AMP_PWR_1 (byte_of l 1);
     wr d IND_AMP_PWR_2 (byte_of l 2); wr d IND_AMP_PWR_3 (byte_of l 3);
     wr d IND_AMP_PWR_4 (byte_of h 0); wr d IND_AMP_PWR_5 (byte_of h 1);
     wr d IND_AMP_PWR_6 (byte_of h 2); wr d IND_AMP_PWR_7 (byte_of h 3)].
Proof.
  cbv zeta. unfold issues, cfg_ch, rhd_cfg_ch, mbind, M_bind.
  do 7 run_access.
  match goal with
  | |- context [rhd_w ?dev ?reg ?v ?w] =>
      destruct (issues_w dev reg v w) as (rlast & wlast & Hrun & Hlast)
  end.
  exists rlast, wlast. split; [exact Hrun|]. join_wire.
Qed.

(** [rhd_cfg_ch] always completes with eight register writes, in the order
    of the registers 0..7, whose payloads are the four bytes of the low
    mask and then of the high mask, least significant first; the bytes put
    together give the two 32-bit masks back. *)
Theorem cfg_ch_bytes dev (channels_l channels_h : Z) w :
  let d := double_bits dev in
  let l := u32 channels_l in
  let h := u32 channels_h in
  issues (cfg_ch dev channels_l channels_h) w
    [wr d IND_AMP_PWR_0 (byte_of l 0); wr d IND_AMP_PWR_1 (byte_of l 1);
     wr d IND_AMP_PWR_2 (byte_of l 2); wr d IND_AMP_PWR_3 (byte_of l 3);
     wr d IND_AMP_PWR_4 (byte_of h 0); wr d IND_AMP_PWR_5 (byte_of h 1);
     wr d IND_AMP_PWR_6 (byte_of h 2); wr d IND_AMP_PWR_7 (byte_of h 3)] /\
  byte_of l 0 + 2 ^ 8 * byte_of l 1 + 2 ^ 16 * byte_of l 2 + 2 ^ 24 * byte_of l 3 = l /\
  byte_of h 0 + 2 ^ 8 * byte_of h 1 + 2 ^ 16 * byte_of h 2 + 2 ^ 24 * byte_of h 3 = h.
Proof.
  cbv zeta. split; [|split; apply mask_bytes; unfold u32; apply Z.mod_pos_bound; lia].
  apply cfg_ch_log.
Qed.

End ChannelMaskFacts.

(** ** Calibration commands *)

Section CalibFacts.

Context {St : Type}.
Implicit Types (dev : rhd_device_t St) (w : world St).

Variable CHIP_ID : Z.

Lemma calib_issues dev w :
  issues (rhd_calib CHIP_ID dev) w
    (cmd (double_bits dev) 0x55 :: replicate 9 (rd (double_bits dev) CHIP_ID)).
Proof.
  unfold issues, rhd_calib, for_rangeM. cbn [seq forM].
  unfold mbind, M_bind, mret, M_ret. do 10 run_access.
  eexists. eexists. split; [reflexivity|]. join_wire.
Qed.

(** [rhd_calib] always completes with ten transfers: the command byte
    [0x55] with a zero payload, then nine reads of [CHIP_ID]; it returns
    the reply to the ninth read, a byte.  [rhd_clear_calib] is the single
    command [0x6A]. *)
Theorem calib_log dev w :
  let d := double_bits dev in
  (exists r w9 w',
     rhd_calib CHIP_ID dev w = Some (r, w') /\
     rhd_r dev CHIP_ID w9 = Some (r, w') /\ 0 <= r < 256 /\
     wire w' = wire w ++ cmd d 0x55 :: replicate 9 (rd d CHIP_ID)) /\
  issues (rhd_clear_calib dev) w [cmd d 0x6A].
Proof.
  cbv zeta. split; [|apply issues_send].
  unfold rhd_calib, for_rangeM. cbn [seq forM]. unfold mbind, M_bind, mret, M_ret.
  do 9 run_access.
  match goal with
  | |- context [rhd_r ?dev ?reg ?w] =>
      pose proof (rhd_r_exchange dev reg w) as Hlast;
      pose proof (exchange_range dev (frame (double_bits dev) (read_addr reg) 0) w)
        as Hrange;
      pose proof (exchange_wire dev (frame (double_bits dev) (read_addr reg) 0) w)
        as Hwlast;
      destruct (exchange dev (frame (double_bits dev) (read_addr reg) 0) w)
        as [rlast wlast];
      exists rlast, w, wlast
  end.
  cbn [fst snd] in *. rewrite Hlast. cbv beta iota.
  rewrite (u8_small rlast) by exact Hrange.
  split; [reflexivity|]. split; [reflexivity|]. split; [exact Hrange|].
  rewrite Hwlast. join_wire.
Qed.

End CalibFacts.

(** ** The single-die sample *)

Lemma select_word (ch : Z) : u16 (Z.shiftl (u16 ch) 8) = Z.shiftl (u8 ch) 8.
Proof.
  pose proof (single_word ch 0) as H.
  change (Z.land (u16 0) 255) with 0 in H. change (u8 0) with 0 in H.
  rewrite !Z.lor_0_r in H. exact H.
Qed.

Section SingleDieFacts.

Context {St : Type}.
Implicit Types (dev : rhd_device_t St) (w : world St).

(** [rhd2000_sample] always completes with one transfer of the one word
    [(ch & 0xFF) << 8], whatever the mode flag of the handle, and returns
    the word received; it is what [rhd2164_sample] does in single mode,
    which writes the word to [rx[0]] and leaves the rest of [rx] alone. *)
Theorem sample2000_one_word dev (ch x0 : Z) (rest : list Z) w :
  let got := rw dev (chip w) [Z.shiftl (u8 ch) 8] 1 in
  rhd2000_sample dev ch w =
    Some (u16 (snd got 0%nat),
          {| chip := fst got; wire := wire w ++ [select ch] |}) /\
  rhd2164_sample {| double_bits := false; rw := rw dev |} ch (x0 :: rest) w =
    Some (u16 (snd got 0%nat) :: rest,
          {| chip := fst got; wire := wire w ++ [select ch] |}).
Proof.
  cbv zeta. split.
  - unfold rhd2000_sample, mbind, M_bind, transfer.
    cbn [length Nat.leb andb]. rewrite select_word.
    destruct (rw dev (chip w) _ 1) as [c got]. reflexivity.
  - rewrite sample_single_spec by reflexivity. cbv zeta. cbn [rw].
    rewrite select_word. reflexivity.
Qed.

End SingleDieFacts.

(** ** ConfigurationEngine inside the tables *)

Lemma SFltb_leb_trans (x y z : spec_float) :
  SFltb x y = true -> SFleb y z = true -> SFltb x z = true.
Proof.
  intros Hxy Hyz. destruct (SFleb_not_nan y z Hyz) as [Hy Hz].
  assert (Hx : is_nan x = false) by (destruct x; [reflexivity..|discriminate|reflexivity]).
  apply SFltb_rank in Hxy; try assumption. apply SFleb_rank in Hyz; try assumption.
  apply SFltb_rank; try assumption. intros Hzx. apply Hxy.
  destruct (rank x) as [[a1 a2] a3], (rank y) as [[b1 b2] b3],
    (rank z) as [[c1 c2] c3].
  unfold lex_le in *. lia.
Qed.

Lemma bias_codes_nonincreasing (i j : Z) :
  0 <= i <= j -> j <= 8 ->
  at_index adc_buf_bias_lut j <= at_index adc_buf_bias_lut i /\
  at_index mux_bias_lut j <= at_index mux_bias_lut i.
Proof.
  intros Hi Hj.
  assert (Hci : i = 0 \/ i = 1 \/ i = 2 \/ i = 3 \/ i = 4 \/ i = 5 \/ i = 6 \/
                i = 7 \/ i = 8) by lia.
  assert (Hcj : j = 0 \/ j = 1 \/ j = 2 \/ j = 3 \/ j = 4 \/ j = 5 \/ j = 6 \/
                j = 7 \/ j = 8) by lia.
  repeat (destruct Hci as [-> | Hci]); try subst i;
    repeat (destruct Hcj as [-> | Hcj]); try subst j;
    try lia; cbv; split; discriminate.
Qed.

(** A larger target never selects a smaller index in [rhd_cfg_fs], and so
    never larger bias codes: the selection is monotone. *)
Theorem fs_index_monotone (m1 m2 : spec_float) :
  SFleb m1 m2 = true ->
  let i1 := fs_loop m1 msps_lut 0 0 in
  let i2 := fs_loop m2 msps_lut 0 0 in
  0 <= i1 <= i2 /\ i2 <= 8 /\
  at_index adc_buf_bias_lut i2 <= at_index adc_buf_bias_lut i1 /\
  at_index mux_bias_lut i2 <= at_index mux_bias_lut i1.
Proof.
  intros Hle i1 i2. destruct (SFleb_not_nan m1 m2 Hle) as [Hn1 Hn2].
  destruct (fs_select_spec m1 Hn1) as [Hr1 [Hlow1 Hhigh1]].
  destruct (fs_select_spec m2 Hn2) as [Hr2 [Hlow2 Hhigh2]].
  fold i1 in Hr1, Hlow1, Hhigh1. fold i2 in Hr2, Hlow2, Hhigh2.
  assert (Hmono : i1 <= i2).
  { destruct (SFleb m1 (f32_of_Z 120000)) eqn:Hc1.
    - rewrite (Hlow1 eq_refl). lia.
    - destruct (SFleb m2 (f32_of_Z 120000)) eqn:Hc2.
      + rewrite (SFleb_trans _ _ _ Hle Hc2) in Hc1. discriminate.
      + destruct (lookup_lt_is_Some_2 msps_lut (Z.to_nat i1)) as [t Ht].
        { change (length msps_lut) with 9%nat. lia. }
        assert (Hlt1 : SFltb (f32_of_Z t) m1 = true)
          by (apply (Hhigh1 eq_refl _ _ Ht); lia).
        pose proof (SFltb_leb_trans _ _ _ Hlt1 Hle) as Hlt2.
        apply (Hhigh2 eq_refl _ _ Ht) in Hlt2. lia. }
  split; [lia|]. split; [lia|]. apply bias_codes_nonincreasing; lia.
Qed.

Lemma fs_index_monotone_witness :
  SFleb (f32_of_Z 150000) (f32_of_Z 500000) = true /\
  let i1 := fs_loop (f32_of_Z 150000) msps_lut 0 0 in
  let i2 := fs_loop (f32_of_Z 500000) msps_lut 0 0 in
  0 <= i1 <= i2 /\ i2 <= 8 /\
  at_index adc_buf_bias_lut i2 <= at_index adc_buf_bias_lut i1 /\
  at_index mux_bias_lut i2 <= at_index mux_bias_lut i1.
Proof.
  split; [reflexivity|].
  apply (fs_index_monotone (f32_of_Z 150000) (f32_of_Z 500000)). reflexivity.
Defined.

(** The two low-side DAC fields packed in one byte can be told apart again
    at every index of the table. *)
Lemma packed_dac_decodes (j : Z) :
  0 <= j <= 24 ->
  let p := Z.lor (Z.shiftl (at_index rl_dac3_lut j) 6) (at_index rl_dac2_lut j) in
  0 <= p < 256 /\ Z.land p 0x3F = at_index rl_dac2_lut j /\
  Z.shiftr p 6 = at_index rl_dac3_lut j.
Proof.
  intros Hj.
  assert (Hn : exists n : nat, j = Z.of_nat n /\ (n < 25)%nat)
    by (exists (Z.to_nat j); lia).
  destruct Hn as [n [-> Hn]].
  do 25 (destruct n as [|n]; [cbv; repeat split; congruence|]). lia.
Qed.

(** The tables of the bandwidth DACs have the lengths of the threshold
    tables. *)
Lemma dac_table_lengths :
  Z.of_nat (length rh1_dac1_lut) = 17 /\ Z.of_nat (length rh1_dac2_lut) = 17 /\
  Z.of_nat (length rh2_dac1_lut) = 17 /\ Z.of_nat (length rh2_dac2_lut) = 17 /\
  Z.of_nat (length rl_dac1_lut) = 25 /\ Z.of_nat (length rl_dac2_lut) = 25 /\
  Z.of_nat (length rl_dac3_lut) = 25.
Proof. repeat split; reflexivity. Qed.

Section TableReads.

Context {St : Type}.

(** A table read inside its bounds gives the entry at the index. *)
Lemma lut_at_index (lut : list Z) (i n : Z) (w : world St) :
  Z.of_nat (length lut) = n -> 0 <= i < n ->
  lut_at lut i w = Some (at_index lut i, w).
Proof.
  intros Hlen Hi. destruct (lut_at_total lut i w) as [v [Hv Hrun]]; [lia|].
  rewrite Hrun. unfold at_index. rewrite (nth_lookup_Some _ _ 0 _ Hv). reflexivity.
Qed.

End TableReads.

(** Where the counting loops stop when the last threshold qualifies. *)
Lemma fh_index_in_range (fh : spec_float) :
  SFgeb fh (f32_of_Z 100) = true ->
  let i := fh_loop fh fh_lut 0 in
  0 <= i <= 16 /\
  (forall (n : nat) (t : Z),
     fh_lut !! n = Some t -> Z.of_nat n < i -> SFgeb fh (f32_of_Z t) = false) /\
  exists t, fh_lut !! Z.to_nat i = Some t /\ SFgeb fh (f32_of_Z t) = true.
Proof.
  intros Hlast. cbv zeta. rewrite fh_loop_count.
  destruct (count_until_spec (fun t => SFgeb fh (f32_of_Z t)) fh_lut 0)
    as [Hr [Hbefore [Hat _]]].
  change (Z.of_nat (length fh_lut)) with 17 in *. rewrite !Z.add_0_l in *.
  set (i := count_until _ fh_lut 0) in *.
  assert (Hi : i <> 17).
  { intros Heq. assert (H16 : SFgeb fh (f32_of_Z 100) = false).
    { apply (Hbefore 16%nat 100); [reflexivity | rewrite Z.add_0_l; lia]. }
    congruence. }
  split; [lia|]. split.
  - intros n t Hn Hlt. apply (Hbefore n t Hn). rewrite Z.add_0_l. exact Hlt.
  - destruct Hat as [t Ht]; [lia|]. rewrite Z.sub_0_r in Ht. eauto.
Qed.

Lemma fl_index_in_range (fl : spec_float) :
  SFleb fl (f32_of_Z 500) = true ->
  let j := fl_loop fl fl_lut 0 in
  0 <= j <= 24 /\
  (forall (n : nat) (t : spec_float),
     fl_lut !! n = Some t -> Z.of_nat n < j -> SFleb fl t = false) /\
  exists t, fl_lut !! Z.to_nat j = Some t /\ SFleb fl t = true.
Proof.
  intros Hlast. cbv zeta. rewrite fl_loop_count.
  destruct (count_until_spec (fun t => SFleb fl t) fl_lut 0)
    as [Hr [Hbefore [Hat _]]].
  change (Z.of_nat (length fl_lut)) with 25 in *. rewrite !Z.add_0_l in *.
  set (j := count_until _ fl_lut 0) in *.
  assert (Hj : j <> 25).
  { intros Heq. assert (H24 : SFleb fl (f32_of_Z 500) = false).
    { apply (Hbefore 24%nat (f32_of_Z 500)); [reflexivity | rewrite Z.add_0_l; lia]. }
    congruence. }
  split; [lia|]. split.
  - intros n t Hn Hlt. apply (Hbefore n t Hn). rewrite Z.add_0_l. exact Hlt.
  - destruct Hat as [t Ht]; [lia|]. rewrite Z.sub_0_r in Ht. eauto.
Qed.

Section BandwidthInRange.

Context {St : Type}.
Implicit Types (dev : rhd_device_t St) (w : world St).

Variables (AMP_BW_SEL_0 AMP_BW_SEL_1 AMP_BW_SEL_2 : Z).
Variables (AMP_BW_SEL_3 AMP_BW_SEL_4 AMP_BW_SEL_5 : Z).

Let cfg_amp_bw :=
  rhd_cfg_amp_bw (St := St) AMP_BW_SEL_0 AMP_BW_SEL_1 AMP_BW_SEL_2
    AMP_BW_SEL_3 AMP_BW_SEL_4 AMP_BW_SEL_5.

(** With both indices inside their tables [rhd_cfg_amp_bw] completes with
    six register writes carrying the DAC codes at the two indices. *)
Lemma cfg_amp_bw_log dev (fl fh : spec_float) w :
  let d := double_bits dev in
  let i := fh_loop fh fh_lut 0 in
  let j := fl_loop fl fl_lut 0 in
  0 <= i <= 16 -> 0 <= j <= 24 ->
  issues (cfg_amp_bw dev fl fh) w
    [wr d AMP_BW_SEL_0 (at_index rh1_dac1_lut i);
     wr d AMP_BW_SEL_1 (at_index rh1_dac2_lut i);
     wr d AMP_BW_SEL_2 (at_index rh2_dac1_lut i);
     wr d AMP_BW_SEL_3 (at_index rh2_dac2_lut i);
     wr d AMP_BW_SEL_4 (at_index rl_dac1_lut j);
     wr d AMP_BW_SEL_5
       (Z.lor (Z.shiftl (at_index rl_dac3_lut j) 6) (at_index rl_dac2_lut j))].
Proof.
  intros d i j Hi Hj. destruct dac_table_lengths as (L1 & L2 & L3 & L4 & L5 & L6 & L7).
  unfold issues, cfg_amp_bw, rhd_cfg_amp_bw, mbind, M_bind, mret, M_ret.
  fold i. fold j.
  rewrite (lut_at_index rh1_dac1_lut i 17 w L1) by lia. run_access.
  rewrite (lut_at_index rh1_dac2_lut i 17 _ L2) by lia. run_access.
  rewrite (lut_at_index rh2_dac1_lut i 17 _ L3) by lia. run_access.
  rewrite (lut_at_index rh2_dac2_lut i 17 _ L4) by lia. run_access.
  rewrite (lut_at_index rl_dac1_lut j 25 _ L5) by lia. run_access.
  rewrite (lut_at_index rl_dac3_lut j 25 _ L7) by lia.
  rewrite (lut_at_index rl_dac2_lut j 25 _ L6) by lia. run_access.
  eexists. eexists. split; [reflexivity|]. join_wire.
Qed.

(** For a high cutoff of at least 100 and a low cutoff of at most 500,
    [rhd_cfg_amp_bw] is defined: each index is the first whose threshold
    qualifies, it lies inside the tables, and the six writes carry the DAC
    codes found there, the last byte packing two fields that can be read
    back from it. *)
Theorem cfg_amp_bw_in_range dev (fl fh : spec_float) w :
  SFgeb fh (f32_of_Z 100) = true -> SFleb fl (f32_of_Z 500) = true ->
  let d := double_bits dev in
  let i := fh_loop fh fh_lut 0 in
  let j := fl_loop fl fl_lut 0 in
  let p := Z.lor (Z.shiftl (at_index rl_dac3_lut j) 6) (at_index rl_dac2_lut j) in
  (0 <= i <= 16 /\
   (forall (n : nat) (t : Z),
      fh_lut !! n = Some t -> Z.of_nat n < i -> SFgeb fh (f32_of_Z t) = false) /\
   exists t, fh_lut !! Z.to_nat i = Some t /\ SFgeb fh (f32_of_Z t) = true) /\
  (0 <= j <= 24 /\
   (forall (n : nat) (t : spec_float),
      fl_lut !! n = Some t -> Z.of_nat n < j -> SFleb fl t = false) /\
   exists t, fl_lut !! Z.to_nat j = Some t /\ SFleb fl t = true) /\
  issues (cfg_amp_bw dev fl fh) w
    [wr d AMP_BW_SEL_0 (at_index rh1_dac1_lut i);
     wr d AMP_BW_SEL_1 (at_index rh1_dac2_lut i);
     wr d AMP_BW_SEL_2 (at_index rh2_dac1_lut i);
     wr d AMP_BW_SEL_3 (at_index rh2_dac2_lut i);
     wr d AMP_BW_SEL_4 (at_index rl_dac1_lut j);
     wr d AMP_BW_SEL_5 p] /\
  (0 <= p < 256 /\ Z.land p 0x3F = at_index rl_dac2_lut j /\
   Z.shiftr p 6 = at_index rl_dac3_lut j).
Proof.
  intros Hfh Hfl d i j p.
  pose proof (fh_index_in_range fh Hfh) as Hi. pose proof (fl_index_in_range fl Hfl) as Hj.
  cbv zeta in Hi, Hj. fold i in Hi. fold j in Hj.
  split; [exact Hi|]. split; [exact Hj|]. split.
  - apply cfg_amp_bw_log; [exact (proj1 Hi) | exact (proj1 Hj)].
  - apply packed_dac_decodes. exact (proj1 Hj).
Qed.

End BandwidthInRange.

Lemma cfg_amp_bw_in_range_witness :
  SFgeb (f32_of_Z 300) (f32_of_Z 100) = true /\
  SFleb (f32_of_Z 20) (f32_of_Z 500) = true /\
  issues (rhd_cfg_amp_bw 8 9 10 11 12 13 (fixed_dev false 0 0) (f32_of_Z 20)
            (f32_of_Z 300)) idle
    [wr false 8 6; wr false 9 9; wr false 10 2; wr false 11 11; wr false 12 54;
     wr false 13 0].
Proof.
  split; [reflexivity|]. split; [reflexivity|].
  exact (proj1 (proj2 (proj2
    (cfg_amp_bw_in_range 8 9 10 11 12 13 (fixed_dev false 0 0) (f32_of_Z 20)
       (f32_of_Z 300) idle eq_refl eq_refl)))).
Defined.

(** A property of the sixteen values of a four-bit field is checked value
    by value. *)
Lemma nibble_cases (P : Z -> Prop) :
  List.Forall P (List.map Z.of_nat (List.seq 0 16)) ->
  forall n, 0 <= n <= 15 -> P n.
Proof.
  intros HP n Hn. rewrite List.Forall_forall in HP. apply HP.
  rewrite <- (Z2Nat.id n) by lia.
  apply List.in_map, List.in_seq. lia.
Qed.

(** The format word for a count that fits the four-bit field: the fields
    do not overlap. *)
Lemma fmt_word_fields (twos_comp abs_mode dsp : bool) (n : Z) :
  0 <= n <= 15 ->
  let v := fmt_word twos_comp abs_mode dsp n in
  v = 0x80 + 0x40 * Z.b2z twos_comp + 0x20 * Z.b2z abs_mode + 0x10 * Z.b2z dsp + n /\
  Z.land v 0xF = n /\ Z.testbit v 4 = dsp /\ Z.testbit v 5 = abs_mode /\
  Z.testbit v 6 = twos_comp /\ Z.testbit v 7 = true.
Proof.
  intros Hn. revert n Hn. apply nibble_cases.
  repeat constructor; destruct twos_comp, abs_mode, dsp; reflexivity.
Qed.

Section DspInRange.

Context {St : Type}.
Implicit Types (dev : rhd_device_t St) (w : world St).

Variable ADC_OUT_FMT_DPS_OFF_RMVL : Z.

Let cfg_dsp := rhd_cfg_dsp (St := St) ADC_OUT_FMT_DPS_OFF_RMVL.

(** [rhd_cfg_dsp] always completes with one register write, of the format
    word for the count of the loop (0 when the DSP is off). *)
Lemma cfg_dsp_log dev (twos_comp abs_mode dsp : bool) (fdsp fs : spec_float) w :
  issues (cfg_dsp dev twos_comp abs_mode dsp fdsp fs) w
    [wr (double_bits dev) ADC_OUT_FMT_DPS_OFF_RMVL
       (fmt_word twos_comp abs_mode dsp
          (if dsp then dsp_loop (SFdiv32 fdsp fs) k_lut 0 else 0))].
Proof. unfold cfg_dsp, rhd_cfg_dsp. apply issues_w. Qed.

(** With the DSP off, [rhd_cfg_dsp] does not look at [fdsp] and [fs] (a
    zero or NaN rate included): it writes the format word with the enable
    bit and the cutoff field clear. *)
Theorem cfg_dsp_disabled dev (twos_comp abs_mode : bool) (fdsp fs : spec_float) w :
  let v := 0x80 + 0x40 * Z.b2z twos_comp + 0x20 * Z.b2z abs_mode in
  cfg_dsp dev twos_comp abs_mode false fdsp fs w =
    rhd_w dev ADC_OUT_FMT_DPS_OFF_RMVL v w /\
  issues (cfg_dsp dev twos_comp abs_mode false fdsp fs) w
    [wr (double_bits dev) ADC_OUT_FMT_DPS_OFF_RMVL v] /\
  Z.testbit v 4 = false /\ Z.land v 0xF = 0.
Proof.
  cbv zeta.
  assert (Hv : fmt_word twos_comp abs_mode false 0 =
               0x80 + 0x40 * Z.b2z twos_comp + 0x20 * Z.b2z abs_mode)
    by (destruct twos_comp, abs_mode; reflexivity).
  split; [|split].
  - unfold cfg_dsp, rhd_cfg_dsp. fold (fmt_word twos_comp abs_mode false 0).
    rewrite Hv. reflexivity.
  - rewrite <- Hv. apply cfg_dsp_log.
  - destruct twos_comp, abs_mode; split; reflexivity.
Qed.

(** With the DSP on and a ratio [k = fdsp / fs] above the last entry of the
    table, the count is the first index whose entry is below [k], it fits
    the four-bit cutoff field, and the word written carries it there with
    the enable bit set. *)
Theorem cfg_dsp_in_range dev (twos_comp abs_mode : bool) (fdsp fs : spec_float) w :
  let k := SFdiv32 fdsp fs in
  SFgtb (f64_of_f32 k) (dec64 4857 9) = true ->
  let n := dsp_loop k k_lut 0 in
  let v := 0x90 + 0x40 * Z.b2z twos_comp + 0x20 * Z.b2z abs_mode + n in
  0 <= n <= 15 /\
  (forall (m : nat) (t : spec_float),
     k_lut !! m = Some t -> Z.of_nat m < n -> SFgtb (f64_of_f32 k) t = false) /\
  (exists t, k_lut !! Z.to_nat n = Some t /\ SFgtb (f64_of_f32 k) t = true) /\
  issues (cfg_dsp dev twos_comp abs_mode true fdsp fs) w
    [wr (double_bits dev) ADC_OUT_FMT_DPS_OFF_RMVL v] /\
  Z.land v 0xF = n /\ Z.testbit v 4 = true.
Proof.
  intros k Hlast n v.
  assert (Hn : 0 <= n <= 15 /\
    (forall (m : nat) (t : spec_float),
       k_lut !! m = Some t -> Z.of_nat m < n -> SFgtb (f64_of_f32 k) t = false) /\
    (exists t, k_lut !! Z.to_nat n = Some t /\ SFgtb (f64_of_f32 k) t = true)).
  { unfold n. rewrite dsp_loop_count.
    destruct (count_until_spec (fun t => SFgtb (f64_of_f32 k) t) k_lut 0)
      as [Hr [Hbefore [Hat _]]].
    change (Z.of_nat (length k_lut)) with 16 in *. rewrite !Z.add_0_l in *.
    set (c := count_until _ k_lut 0) in *.
    assert (Hc : c <> 16).
    { intros Heq. assert (H15 : SFgtb (f64_of_f32 k) (dec64 4857 9) = false).
      { apply (Hbefore 15%nat (dec64 4857 9)); [reflexivity | rewrite Z.add_0_l; lia]. }
      congruence. }
    split; [lia|]. split.
    - intros m t Hm Hlt. apply (Hbefore m t Hm). rewrite Z.add_0_l. exact Hlt.
    - destruct Hat as [t Ht]; [lia|]. rewrite Z.sub_0_r in Ht. eauto. }
  destruct Hn as [Hr [Hbefore Hat]].
  destruct (fmt_word_fields twos_comp abs_mode true n Hr) as (Hv & Hlow & Hen & _).
  cbv zeta in Hv, Hlow, Hen.
  assert (Hvv : fmt_word twos_comp abs_mode true n = v)
    by (rewrite Hv; unfold v; cbn [Z.b2z]; lia).
  rewrite Hvv in Hlow, Hen.
  split; [exact Hr|]. split; [exact Hbefore|]. split; [exact Hat|].
  split; [|split; assumption].
  rewrite <- Hvv. apply (cfg_dsp_log dev twos_comp abs_mode true fdsp fs w).
Qed.

End DspInRange.

Lemma cfg_dsp_in_range_witness :
  SFgtb (f64_of_f32 (SFdiv32 (f32_of_Z 300) (f32_of_Z 30000))) (dec64 4857 9) = true /\
  issues (rhd_cfg_dsp 4 (fixed_dev false 0 0) true false true (f32_of_Z 300)
            (f32_of_Z 30000)) idle
    [wr false 4 0xD5].
Proof.
  split; [reflexivity|].
  exact (proj1 (proj2 (proj2 (proj2
    (cfg_dsp_in_range 4 (fixed_dev false 0 0) true false (f32_of_Z 300)
       (f32_of_Z 30000) idle eq_refl))))).
Defined.

(** ** The identity check on the wire *)

Section IdentityLog.

Context {St : Type}.
Implicit Types (dev : rhd_device_t St) (w : world St).

Lemma sanity_loop_log (base : Z) (sgn : bool) dev (sig : list ascii) (i : Z) w :
  let letters := identity_reads dev base (length sig) i w in
  let m := matching_prefix letters (map char_code sig) in
  exists w',
    sanity_loop base sgn dev sig i w =
    Some ((if (m =? length sig)%nat then 0 else i + Z.of_nat m + base), w') /\
    wire w' =
    wire w ++ read_log (double_bits dev) base i (Nat.min (S m) (length sig)).
Proof.
  cbv zeta. revert i w. induction sig as [|c sig IH]; intros i w.
  - exists w. cbn. rewrite app_nil_r. auto.
  - cbn [sanity_loop length identity_reads map].
    unfold mbind, M_bind. rewrite rhd_read_force_spec.
    pose proof (read3_range dev (base + i) w) as Hv.
    pose proof (read3_wire dev (base + i) w) as Hw. cbv zeta in Hw.
    destruct (read3 dev (base + i) w) as [v w1]. cbn [fst snd] in Hv, Hw.
    cbn [matching_prefix].
    rewrite to_char_inj by (try apply char_code_range; lia).
    destruct (v =? char_code c); cbn [negb].
    + destruct (IH (i + 1) w1) as [w' [Hrun Hwire]]. exists w'. split.
      * rewrite Hrun. f_equal. f_equal. cbn [Nat.eqb].
        destruct (_ =? length sig)%nat; [reflexivity | lia].
      * rewrite Hwire, Hw. cbn [Nat.min read_log replicate].
        rewrite <- app_assoc. reflexivity.
    + exists w1. split.
      * cbn [Nat.eqb]. unfold mret, M_ret. f_equal. f_equal. lia.
      * rewrite Hw. cbn [Nat.min]. destruct (length sig); cbn; rewrite ?app_nil_r;
          reflexivity.
Qed.

(** On the wire [rhd_sanity_check] only reads: three reads of each
    register from [INTAN_0] on, up to and including the first whose letter
    differs from "INTAN", so 3 to 15 transfers; it returns 0 when the five
    letters agree and the address of the first that differs otherwise.
    [rhd_init] is that check on the handle it has filled. *)
Theorem sanity_check_log (INTAN_0 : Z) (char_is_signed : bool) dev w :
  let m := matching_prefix (identity_reads dev INTAN_0 5 0 w) [73; 78; 84; 65; 78] in
  let n := Nat.min (S m) 5 in
  (exists w',
     rhd_sanity_check INTAN_0 char_is_signed dev w =
     Some ((if (m =? 5)%nat then 0 else INTAN_0 + Z.of_nat m), w') /\
     wire w' = wire w ++ read_log (double_bits dev) INTAN_0 0 n /\
     rhd_init INTAN_0 char_is_signed (double_bits dev) (rw dev) w =
     Some ({| double_bits := double_bits dev; rw := rw dev |},
           (if (m =? 5)%nat then 0 else INTAN_0 + Z.of_nat m), w')) /\
  length (read_log (double_bits dev) INTAN_0 0 n) = (3 * n)%nat /\
  (1 <= n <= 5)%nat.
Proof.
  intros m n.
  destruct (sanity_loop_log INTAN_0 char_is_signed dev (list_ascii_of_string INTAN) 0 w)
    as [w' [Hrun Hwire]]. cbv zeta in Hrun, Hwire.
  change (map char_code (list_ascii_of_string INTAN)) with [73; 78; 84; 65; 78]
    in Hrun, Hwire.
  change (length (list_ascii_of_string INTAN)) with 5%nat in Hrun, Hwire.
  fold m in Hrun, Hwire. fold n in Hwire.
  assert (Hret : (if (m =? 5)%nat then 0 else 0 + Z.of_nat m + INTAN_0) =
                 (if (m =? 5)%nat then 0 else INTAN_0 + Z.of_nat m))
    by (destruct (m =? 5)%nat; lia).
  rewrite Hret in Hrun. split; [|split].
  - exists w'. split; [exact Hrun|]. split; [exact Hwire|].
    unfold rhd_init, mbind, M_bind, mret, M_ret.
    destruct dev as [d f]. cbn [double_bits rw] in *.
    unfold rhd_sanity_check in Hrun. unfold rhd_sanity_check. rewrite Hrun.
    reflexivity.
  - generalize 0 at 1. generalize n. clear. intros n. induction n as [|n IH]; intros i.
    + reflexivity.
    + cbn [read_log]. rewrite length_app, IH. cbn [replicate length]. lia.
  - unfold n. lia.
Qed.

End IdentityLog.

(** ** The sweep on the wire and in the frame *)

Section SweepMore.

Context {St : Type}.
Implicit Types (dev : rhd_device_t St) (w : world St).

(** One request on a two-word buffer: its frame, and what it leaves in the
    buffer: both words marked with bit 0 in double mode, the second word
    untouched in single mode. *)
Lemma sample_pair_log dev (ch x0 x1 : Z) w :
  exists r0 r1 w',
    rhd2164_sample dev ch [x0; x1] w = Some ([r0; r1], w') /\
    wire w' = wire w ++ [request (double_bits dev) ch] /\
    (if double_bits dev
     then Z.testbit r0 0 = true /\ Z.testbit r1 0 = true
     else r1 = x1).
Proof.
  destruct (double_bits dev) eqn:Hd.
  - rewrite sample_double_spec by exact Hd. cbv zeta.
    do 3 eexists. split; [reflexivity|]. split; [reflexivity|].
    match goal with
    | |- context [rhd_unsplit_u16 ?first] =>
        pose proof (unsplit_range first) as [Ha1 Hb1]
    end.
    match goal with
    | |- context [die_word _ (fst (rhd_unsplit_u16 ?second))] =>
        pose proof (unsplit_range second) as [Ha0 Hb0]
    end.
    split.
    + exact (proj2 (proj2 (die_word_bytes _ _ Ha1 Ha0))).
    + exact (proj2 (proj2 (die_word_bytes _ _ Hb1 Hb0))).
  - rewrite sample_single_spec by exact Hd. cbv zeta. rewrite select_word.
    do 3 eexists. split; [reflexivity|]. split; reflexivity.
Qed.

Lemma store_world (buf : list Z) (i v : Z) w (b : list Z) w' :
  store buf i v w = Some (b, w') -> w' = w.
Proof.
  unfold store. destruct (_ && _); [|discriminate]. intros [= _ <-]. reflexivity.
Qed.

(** The loop of the sweep sends one request per index, in order. *)
Lemma sweep_wire dev (chs : list nat) (x0 x1 : Z) (buf : list Z) w st w' :
  forM chs (sample_all_body dev) ([x0; x1], buf) w = Some (st, w') ->
  wire w' = wire w ++ map (fun ch => request (double_bits dev) (Z.of_nat ch)) chs.
Proof.
  revert x0 x1 buf w. induction chs as [|ch chs IH]; intros x0 x1 buf w Hrun.
  - injection Hrun as _ <-. cbn [map]. rewrite app_nil_r. reflexivity.
  - cbn [forM] in Hrun. unfold mbind, M_bind, sample_all_body at 1 in Hrun.
    unfold mbind, M_bind in Hrun.
    destruct (sample_pair_log dev (Z.of_nat ch) x0 x1 w) as (r0 & r1 & w1 & Hs & Hw & _).
    rewrite Hs, load_head in Hrun.
    destruct (store buf _ r0 w1) as [[b1 wb1]|] eqn:Hst1; [|discriminate].
    apply store_world in Hst1. subst wb1. rewrite load_second in Hrun.
    destruct (store b1 _ r1 w1) as [[b2 wb2]|] eqn:Hst2; [|discriminate].
    apply store_world in Hst2. subst wb2.
    apply IH in Hrun. rewrite Hrun, Hw, <- app_assoc. reflexivity.
Qed.

(** What the requests of a sweep leave in the receive buffer. *)
Lemma sweep_results_marks dev (chs : list nat) (x0 x1 : Z) w :
  Forall (fun r : Z * Z =>
            if double_bits dev
            then Z.testbit (fst r) 0 = true /\ Z.testbit (snd r) 0 = true
            else snd r = x1)
         (sweep_results dev chs [x0; x1] w).
Proof.
  revert x0 x1 w. induction chs as [|ch chs IH]; intros x0 x1 w; [constructor|].
  cbn [sweep_results].
  destruct (sample_pair_log dev (Z.of_nat ch) x0 x1 w) as (r0 & r1 & w1 & Hs & _ & Hmark).
  rewrite Hs. cbn [nth]. constructor; [exact Hmark|].
  specialize (IH r0 r1 w1). destruct (double_bits dev); [exact IH|].
  subst r1. exact IH.
Qed.

End SweepMore.

(** Every slot of the lower half is the slot of some request. *)
Lemma slot_preimage (t : nat) :
  (t < 32)%nat -> exists ch : nat, (ch < 32)%nat /\ slot_of (Z.of_nat ch) = Z.of_nat t.
Proof.
  intros Ht. exists (if (t <? 30)%nat then (t + 2)%nat else (31 - t)%nat).
  unfold slot_of. destruct (Nat.ltb_spec t 30).
  - split; [lia|]. destruct (Z.ltb_spec (Z.of_nat (t + 2)) 2); lia.
  - split; [lia|]. destruct (Z.ltb_spec (Z.of_nat (31 - t)) 2); lia.
Qed.

Section SweepFrame.

Context {St : Type}.
Implicit Types (dev : rhd_device_t St) (w : world St).

(** The sweep, step by step: the loop, then the masking of slot 0. *)
Lemma sample_all_run dev (sample_buf : list Z) w :
  length sample_buf = 64%nat ->
  let res := sweep_results dev (seq 0 32) [0; 0] w in
  exists buf1 w1 s0,
    rhd2164_sample_all dev sample_buf w =
      Some (<[0%nat := u16 (Z.land s0 0xFFFE)]> buf1, w1) /\
    buf1 !! 0%nat = Some s0 /\ length buf1 = 64%nat /\ length res = 32%nat /\
    wire w1 =
      wire w ++ map (fun ch => request (double_bits dev) (Z.of_nat ch)) (seq 0 32) /\
    forall s : nat, (s < 64)%nat ->
      exists r0 r1, In (r0, r1) res /\
        buf1 !! s = Some (if (s <? 32)%nat then r0 else r1).
Proof.
  intros Hlen res.
  assert (Hnd : NoDup (seq 0 32)) by apply NoDup_seq.
  assert (Hlt : Forall (fun ch => (ch < 32)%nat) (seq 0 32)).
  { apply List.Forall_forall. intros ch Hin. apply in_seq in Hin. lia. }
  destruct (sample_sweep_spec dev (seq 0 32) 0 0 sample_buf w Hnd Hlt Hlen)
    as [y0 [y1 [buf1 [w1 [Hloop [Hlen1 [Hres [Hslots _]]]]]]]].
  fold res in Hres, Hslots. rewrite length_seq in Hres.
  destruct (lookup_lt_is_Some_2 buf1 0) as [s0 Hs0]; [rewrite Hlen1; lia|].
  exists buf1, w1, s0.
  split; [|split; [exact Hs0|split; [exact Hlen1|split; [exact Hres|split]]]].
  - unfold rhd2164_sample_all, for_rangeM, mbind, M_bind. rewrite Hloop.
    pose proof (load_inside buf1 0 s0 w1 Hs0) as Hload.
    change (Z.of_nat 0) with 0 in Hload. rewrite Hload.
    rewrite store_inside by (rewrite Hlen1; lia). reflexivity.
  - exact (sweep_wire dev _ _ _ _ _ _ _ Hloop).
  - intros s Hs.
    assert (Hpre : exists (ch : nat), (ch < 32)%nat /\
              Z.to_nat (slot_of (Z.of_nat ch) + (if (s <? 32)%nat then 0 else 32)) = s).
    { destruct (Nat.ltb_spec s 32).
      - destruct (slot_preimage s) as [ch [Hch Hslot]]; [lia|].
        exists ch. split; [exact Hch | lia].
      - destruct (slot_preimage (s - 32)) as [ch [Hch Hslot]]; [lia|].
        exists ch. split; [exact Hch | lia]. }
    destruct Hpre as [ch [Hch Hslot]].
    destruct (lookup_lt_is_Some_2 res ch) as [[r0 r1] Hr]; [rewrite Hres; exact Hch|].
    assert (Hseq : seq 0 32 !! ch = Some ch)
      by (rewrite lookup_seq_lt by exact Hch; reflexivity).
    destruct (Hslots ch ch r0 r1 Hseq Hr) as [Hr0 Hr1].
    exists r0, r1. split.
    + apply list_elem_of_In. apply (list_elem_of_lookup_2 _ _ _ Hr).
    + destruct (s <? 32)%nat; rewrite <- Hslot.
      * rewrite Z.add_0_r. exact Hr0.
      * exact Hr1.
Qed.

(** On a frame of 64 slots [rhd2164_sample_all] completes with exactly 32
    transfers, the requests for the channels 0..31 in that order, each of
    one word in single mode and of two in double mode. *)
Theorem sample_all_log dev (sample_buf : list Z) w :
  length sample_buf = 64%nat ->
  issues (rhd2164_sample_all dev sample_buf) w
    (map (fun ch => request (double_bits dev) (Z.of_nat ch)) (seq 0 32)).
Proof.
  intros Hlen.
  destruct (sample_all_run dev sample_buf w Hlen) as (buf1 & w1 & s0 & Hrun & _ & _ & _ & Hw & _).
  exists (<[0%nat := u16 (Z.land s0 0xFFFE)]> buf1), w1. auto.
Qed.

(** What the sweep leaves in the frame.  In double mode every slot but
    slot 0 has its bit 0 set (the mark put on each sample), slot 0 being
    the one with the bit cleared; in single mode the upper half of the
    frame, slots 32..63, is all zero, the transport writing only the one
    word asked for. *)
Theorem sample_all_marks dev (sample_buf : list Z) w :
  length sample_buf = 64%nat ->
  exists buf' w',
    rhd2164_sample_all dev sample_buf w = Some (buf', w') /\
    length buf' = 64%nat /\
    (if double_bits dev
     then Forall (fun v => Z.testbit v 0 = true) (drop 1 buf')
     else drop 32 buf' = replicate 32 0).
Proof.
  intros Hlen.
  destruct (sample_all_run dev sample_buf w Hlen)
    as (buf1 & w1 & s0 & Hrun & Hs0 & Hlen1 & Hres & _ & Hslots).
  pose proof (sweep_results_marks dev (seq 0 32) 0 0 w) as Hmarks.
  rewrite List.Forall_forall in Hmarks.
  exists (<[0%nat := u16 (Z.land s0 0xFFFE)]> buf1), w1.
  split; [exact Hrun|]. split; [rewrite length_insert; exact Hlen1|].
  destruct (double_bits dev).
  - apply Forall_lookup. intros i v Hv. rewrite lookup_drop in Hv.
    rewrite list_lookup_insert_ne in Hv by lia.
    assert (Hi : (1 + i < 64)%nat)
      by (rewrite <- Hlen1; apply (lookup_lt_Some _ _ _ Hv)).
    destruct (Hslots (1 + i)%nat Hi) as (r0 & r1 & Hin & Hlook).
    destruct (Hmarks _ Hin) as [Hm0 Hm1]. cbn [fst snd] in Hm0, Hm1.
    rewrite Hlook in Hv. destruct (1 + i <? 32)%nat; congruence.
  - apply list_eq. intros i. rewrite lookup_drop.
    rewrite list_lookup_insert_ne by lia.
    destruct (Nat.lt_ge_cases i 32) as [Hi|Hi].
    + destruct (Hslots (32 + i)%nat ltac:(lia)) as (r0 & r1 & Hin & Hlook).
      pose proof (Hmarks _ Hin) as Hm. cbn [snd] in Hm. subst r1.
      rewrite Hlook. replace (32 + i <? 32)%nat with false
        by (symmetry; apply Nat.ltb_ge; lia).
      symmetry. apply lookup_replicate_2. exact Hi.
    + rewrite (lookup_ge_None_2 buf1) by (rewrite Hlen1; lia).
      symmetry. apply lookup_ge_None_2. rewrite length_replicate. exact Hi.
Qed.

End SweepFrame.

Lemma sample_all_log_witness :
  length (replicate 64 0) = 64%nat /\
  issues (rhd2164_sample_all (fixed_dev false 0x1234 0) (replicate 64 0)) idle
    (map (fun ch => request false (Z.of_nat ch)) (seq 0 32)).
Proof.
  split; [reflexivity|].
  apply (sample_all_log (fixed_dev false 0x1234 0) (replicate 64 0) idle).
  reflexivity.
Defined.

Lemma sample_all_marks_witness :
  length (replicate 64 7) = 64%nat /\
  exists buf' w',
    rhd2164_sample_all (fixed_dev false 0x1234 0) (replicate 64 7) idle =
      Some (buf', w') /\
    length buf' = 64%nat /\ drop 32 buf' = replicate 32 0.
Proof.
  split; [reflexivity|].
  apply (sample_all_marks (fixed_dev false 0x1234 0) (replicate 64 7) idle).
  reflexivity.
Defined.

(** ** The power-up sequence *)

Section SetupFacts.

Context {St : Type}.
Implicit Types (dev : rhd_device_t St) (w : world St).

Variables (SUPPLY_SENS_ADC_BUF_BIAS MUX_BIAS_CURR : Z).
Variables (AMP_BW_SEL_0 AMP_BW_SEL_1 AMP_BW_SEL_2 : Z).
Variables (AMP_BW_SEL_3 AMP_BW_SEL_4 AMP_BW_SEL_5 : Z).
Variables (ADC_OUT_FMT_DPS_OFF_RMVL INTAN_0 : Z).
Variable char_is_signed : bool.
Variables (CHIP_ID ADC_CFG MUX_LOAD_TEMP_SENS_AUX_DIG_OUT : Z).
Variables (IMP_CHK_CTRL IMP_CHK_DAC IMP_CHK_AMP_SEL : Z).
Variables (IND_AMP_PWR_0 IND_AMP_PWR_1 IND_AMP_PWR_2 IND_AMP_PWR_3 : Z).
Variables (IND_AMP_PWR_4 IND_AMP_PWR_5 IND_AMP_PWR_6 IND_AMP_PWR_7 : Z).

Let setup :=
  rhd_setup (St := St) SUPPLY_SENS_ADC_BUF_BIAS MUX_BIAS_CURR
    AMP_BW_SEL_0 AMP_BW_SEL_1 AMP_BW_SEL_2 AMP_BW_SEL_3 AMP_BW_SEL_4 AMP_BW_SEL_5
    ADC_OUT_FMT_DPS_OFF_RMVL INTAN_0 char_is_signed
    CHIP_ID ADC_CFG MUX_LOAD_TEMP_SENS_AUX_DIG_OUT
    IMP_CHK_CTRL IMP_CHK_DAC IMP_CHK_AMP_SEL
    IND_AMP_PWR_0 IND_AMP_PWR_1 IND_AMP_PWR_2 IND_AMP_PWR_3
    IND_AMP_PWR_4 IND_AMP_PWR_5 IND_AMP_PWR_6 IND_AMP_PWR_7.

(** [rhd_cfg_fs] on the wire, when its result is defined. *)
Lemma cfg_fs_log dev (fs : spec_float) (n_ch r : Z) w :
  let msps := SFmul32 fs (f32_of_Z n_ch) in
  let idx := fs_loop msps msps_lut 0 0 in
  int_of_float msps = Some r ->
  issues (rhd_cfg_fs SUPPLY_SENS_ADC_BUF_BIAS MUX_BIAS_CURR dev fs n_ch) w
    [wr (double_bits dev) SUPPLY_SENS_ADC_BUF_BIAS (at_index adc_buf_bias_lut idx);
     wr (double_bits dev) MUX_BIAS_CURR (at_index mux_bias_lut idx)].
Proof.
  intros msps idx Hint.
  assert (Hnan : is_nan msps = false) by (destruct msps; [reflexivity..|discriminate|reflexivity]).
  destruct (fs_select_spec msps Hnan) as [Hidx _]. fold idx in Hidx.
  unfold issues, rhd_cfg_fs, mbind, M_bind, mret, M_ret. fold msps. fold idx.
  rewrite (lut_at_index adc_buf_bias_lut idx 9 w eq_refl) by lia. run_access.
  rewrite (lut_at_index mux_bias_lut idx 9 _ eq_refl) by lia. run_access.
  rewrite Hint. eexists. eexists. split; [reflexivity|]. join_wire.
Qed.

(** With a sampling rate whose 32-channel throughput fits an [int], a high
    cutoff of at least 100 and a low cutoff of at most 500, [rhd_setup]
    sends a fixed sequence of 34 frames (two identity reads, five writes
    for the ADC and the impedance check, the two bias codes, the format
    word, all 64 amplifiers powered, the six bandwidth codes, the
    calibration command and nine identity reads) and then is the identity
    check made from there, whose result it returns. *)
Theorem setup_log dev (fs fl fh : spec_float) (dsp : bool) (fdsp : spec_float)
    (r : Z) w :
  int_of_float (SFmul32 fs (f32_of_Z 32)) = Some r ->
  SFgeb fh (f32_of_Z 100) = true -> SFleb fl (f32_of_Z 500) = true ->
  let d := double_bits dev in
  let idx := fs_loop (SFmul32 fs (f32_of_Z 32)) msps_lut 0 0 in
  let n := if dsp then dsp_loop (SFdiv32 fdsp fs) k_lut 0 else 0 in
  let i := fh_loop fh fh_lut 0 in
  let j := fl_loop fl fl_lut 0 in
  let log :=
    [rd d CHIP_ID; rd d CHIP_ID; wr d ADC_CFG 0xDE;
     wr d MUX_LOAD_TEMP_SENS_AUX_DIG_OUT 0; wr d IMP_CHK_CTRL 0;
     wr d IMP_CHK_DAC 0; wr d IMP_CHK_AMP_SEL 0;
     wr d SUPPLY_SENS_ADC_BUF_BIAS (at_index adc_buf_bias_lut idx);
     wr d MUX_BIAS_CURR (at_index mux_bias_lut idx);
     wr d ADC_OUT_FMT_DPS_OFF_RMVL (fmt_word true false dsp n);
     wr d IND_AMP_PWR_0 0xFF; wr d IND_AMP_PWR_1 0xFF; wr d IND_AMP_PWR_2 0xFF;
     wr d IND_AMP_PWR_3 0xFF; wr d IND_AMP_PWR_4 0xFF; wr d IND_AMP_PWR_5 0xFF;
     wr d IND_AMP_PWR_6 0xFF; wr d IND_AMP_PWR_7 0xFF;
     wr d AMP_BW_SEL_0 (at_index rh1_dac1_lut i);
     wr d AMP_BW_SEL_1 (at_index rh1_dac2_lut i);
     wr d AMP_BW_SEL_2 (at_index rh2_dac1_lut i);
     wr d AMP_BW_SEL_3 (at_index rh2_dac2_lut i);
     wr d AMP_BW_SEL_4 (at_index rl_dac1_lut j);
     wr d AMP_BW_SEL_5
       (Z.lor (Z.shiftl (at_index rl_dac3_lut j) 6) (at_index rl_dac2_lut j));
     cmd d 0x55] ++ replicate 9 (rd d CHIP_ID) in
  length log = 34%nat /\
  exists w1,
    wire w1 = wire w ++ log /\
    setup dev fs fl fh dsp fdsp w = rhd_sanity_check INTAN_0 char_is_signed dev w1.
Proof.
  intros Hint Hfh Hfl d idx n i j log. split; [reflexivity|].
  pose proof (fh_index_in_range fh Hfh) as [Hi _].
  pose proof (fl_index_in_range fl Hfl) as [Hj _]. fold i in Hi. fold j in Hj.
  unfold setup, rhd_setup, mbind, M_bind.
  do 7 run_access.
  match goal with
  | |- context [rhd_cfg_fs _ _ ?dev ?fs ?n ?w] =>
      run_with (cfg_fs_log dev fs n r w Hint)
  end.
  match goal with
  | |- context [rhd_cfg_dsp ?reg ?dev ?t ?a ?e ?fdsp ?fs ?w] =>
      run_with (cfg_dsp_log reg dev t a e fdsp fs w)
  end.
  match goal with
  | |- context [rhd_cfg_ch ?r0 ?r1 ?r2 ?r3 ?r4 ?r5 ?r6 ?r7 ?dev ?l ?h ?w] =>
      run_with (cfg_ch_log r0 r1 r2 r3 r4 r5 r6 r7 dev l h w)
  end.
  match goal with
  | |- context [rhd_cfg_amp_bw ?a0 ?a1 ?a2 ?a3 ?a4 ?a5 ?dev ?fl ?fh ?w] =>
      run_with (cfg_amp_bw_log a0 a1 a2 a3 a4 a5 dev fl fh w Hi Hj)
  end.
  match goal with
  | |- context [rhd_calib ?id ?dev ?w] => run_with (calib_issues id dev w)
  end.
  eexists. split; [|reflexivity]. join_wire.
Qed.

(** When no threshold of the high table is at most [fh] (an [fh] of 90,
    say), or none of the low table is at least [fl], [rhd_setup] is
    undefined: it reaches the DAC lookup of [rhd_cfg_amp_bw] that reads
    outside its table, or stops being defined before. *)
Theorem setup_undefined_outside_tables dev (fs fl fh : spec_float) (dsp : bool)
    (fdsp : spec_float) w :
  Forall (fun t => SFgeb fh (f32_of_Z t) = false) fh_lut \/
  Forall (fun t => SFleb fl t = false) fl_lut ->
  setup dev fs fl fh dsp fdsp w = None.
Proof.
  intros Hout.
  assert (Hbw : forall w0,
            rhd_cfg_amp_bw AMP_BW_SEL_0 AMP_BW_SEL_1 AMP_BW_SEL_2 AMP_BW_SEL_3
              AMP_BW_SEL_4 AMP_BW_SEL_5 dev fl fh w0 = None).
  { intros w0.
    destruct (amp_bw_high_index AMP_BW_SEL_0 AMP_BW_SEL_1 AMP_BW_SEL_2 AMP_BW_SEL_3
                AMP_BW_SEL_4 AMP_BW_SEL_5 dev fl fh w0) as (Hi & _ & _ & Hhigh).
    destruct Hout as [Hh | Hl].
    - exact (proj2 (Hhigh Hh)).
    - destruct (amp_bw_low_index fl) as (_ & _ & _ & Hlow).
      destruct (Z.eq_dec (fh_loop fh fh_lut 0) 17) as [H17 | H17].
      + apply amp_bw_high_past_table. lia.
      + apply amp_bw_low_past_table; [lia | rewrite (Hlow Hl); lia]. }
  unfold setup, rhd_setup, mbind, M_bind.
  do 7 run_access.
  match goal with
  | |- context [rhd_cfg_fs ?s ?m ?dev ?fs ?n ?w] =>
      destruct (rhd_cfg_fs s m dev fs n w) as [[x wfs]|]; [|reflexivity]
  end.
  match goal with
  | |- context [rhd_cfg_dsp ?reg ?dev ?t ?a ?e ?fdsp ?fs ?w] =>
      run_with (cfg_dsp_log reg dev t a e fdsp fs w)
  end.
  match goal with
  | |- context [rhd_cfg_ch ?r0 ?r1 ?r2 ?r3 ?r4 ?r5 ?r6 ?r7 ?dev ?l ?h ?w] =>
      run_with (cfg_ch_log r0 r1 r2 r3 r4 r5 r6 r7 dev l h w)
  end.
  rewrite Hbw. reflexivity.
Qed.

End SetupFacts.

Lemma setup_log_witness :
  int_of_float (SFmul32 (f32_of_Z 1000) (f32_of_Z 32)) = Some 32000 /\
  SFgeb (f32_of_Z 300) (f32_of_Z 100) = true /\
  SFleb (f32_of_Z 20) (f32_of_Z 500) = true /\
  exists w1,
    length (wire w1) = 34%nat /\
    rhd_setup 1 2 8 9 10 11 12 13 4 40 true 63 0 3 5 6 7 14 15 16 17 18 19 20 21
      (fixed_dev false 0 0) (f32_of_Z 1000) (f32_of_Z 20) (f32_of_Z 300) true
      (f32_of_Z 10) idle =
    rhd_sanity_check 40 true (fixed_dev false 0 0) w1.
Proof.
  split; [reflexivity|]. split; [reflexivity|]. split; [reflexivity|].
  destruct (setup_log 1 2 8 9 10 11 12 13 4 40 true 63 0 3 5 6 7 14 15 16 17 18 19
              20 21 (fixed_dev false 0 0) (f32_of_Z 1000) (f32_of_Z 20)
              (f32_of_Z 300) true (f32_of_Z 10) 32000 idle eq_refl eq_refl eq_refl)
    as [Hlen [w1 [Hwire Hrun]]].
  exists w1. split; [|exact Hrun].
  rewrite Hwire, length_app, Hlen. reflexivity.
Defined.

Lemma setup_undefined_outside_tables_witness :
  (Forall (fun t => SFgeb (f32_of_Z 90) (f32_of_Z t) = false) fh_lut \/
   Forall (fun t => SFleb (f32_of_Z 20) t = false) fl_lut) /\
  rhd_setup 1 2 8 9 10 11 12 13 4 40 true 63 0 3 5 6 7 14 15 16 17 18 19 20 21
    (fixed_dev false 0 0) (f32_of_Z 1000) (f32_of_Z 20) (f32_of_Z 90) true
    (f32_of_Z 10) idle = None.
Proof.
  assert (H : Forall (fun t => SFgeb (f32_of_Z 90) (f32_of_Z t) = false) fh_lut)
    by (repeat constructor).
  split; [left; exact H|].
  apply (setup_undefined_outside_tables 1 2 8 9 10 11 12 13 4 40 true 63 0 3 5 6 7
           14 15 16 17 18 19 20 21 (fixed_dev false 0 0) (f32_of_Z 1000)
           (f32_of_Z 20) (f32_of_Z 90) true (f32_of_Z 10) idle).
  left. exact H.
Defined.
